(** * CuCIMWSI: a shallow embedding of [trident/wsi_objects/CuCIMWSI.py]

    The adapter class [CuCIMWSI] wraps a CuCIM image handle.  Its methods
    are embedded as functions on an explicit adapter state, in a small
    state-and-exception monad: a Python exception leaves the attribute
    assignments made before it in place, so the state is threaded through
    failures as well.

    Numbers.  Python [int] is [Z].  Python [float] is modelled by the
    rationals [Q] with exact arithmetic, every result reduced by [Qred];
    rounding, infinities and NaN are outside the model.  The conversion of
    an [int] to a [float] fails, as in Python, on an integer beyond the
    range of the doubles. *)

From Stdlib Require Import ZArith QArith Qabs Qreduction String Ascii List
  Bool Lia.
From stdpp Require Import base option gmap strings list fin_maps.

Local Open Scope Z_scope.
Local Open Scope string_scope.

Set Warnings "-register-all".

(** ** Python values, exceptions and results *)

Module Py.

(** The exception classes the adapter meets.  All of them derive from
    [Exception], except [KeyboardInterrupt], which derives from
    [BaseException] only and so passes through [except Exception]. *)
Inductive exn_class :=
| FileNotFoundError | ValueError | TypeError | KeyError | IndexError
| AttributeError | ZeroDivisionError | RuntimeError
| ImportError | ModuleNotFoundError
| PlainException
| KeyboardInterrupt.

Record exn := mk_exn { exn_cls : exn_class; exn_str : string }.

Definition is_Exception (c : exn_class) : bool :=
  match c with KeyboardInterrupt => false | _ => true end.

Definition is_FileNotFoundError (c : exn_class) : bool :=
  match c with FileNotFoundError => true | _ => false end.

Inductive result (A : Type) :=
| Ok (a : A)
| Raise (e : exn).
Arguments Ok {A} a.
Arguments Raise {A} e.

(** A JSON-like Python value: what CuCIM metadata is made of. *)
Inductive pyval :=
| PNone
| PBool (b : bool)
| PInt (z : Z)
| PFloat (q : Q)
| PStr (s : string)
| PList (l : list pyval)
| PDict (d : list (string * pyval)).

(** [str.lower], on the ASCII letters. *)
Definition lower_ascii (c : ascii) : ascii :=
  let n := nat_of_ascii c in
  if (Nat.leb 65 n && Nat.leb n 90)%bool then ascii_of_nat (n + 32) else c.

Fixpoint lower (s : string) : string :=
  match s with
  | EmptyString => EmptyString
  | String c r => String (lower_ascii c) (lower r)
  end.

(** [sub in s] on strings. *)
Fixpoint is_prefix (p s : string) : bool :=
  match p, s with
  | EmptyString, _ => true
  | String a p', String b s' => (Ascii.eqb a b && is_prefix p' s')%bool
  | String _ _, EmptyString => false
  end.

Fixpoint contains (sub s : string) : bool :=
  (is_prefix sub s ||
   match s with
   | EmptyString => false
   | String _ s' => contains sub s'
   end)%bool.

(** [l[i]] on a Python list: a negative index counts from the end, an
    index out of range raises [IndexError]. *)
Definition index {A} (what : string) (l : list A) (i : Z) : result A :=
  let n := Z.of_nat (length l) in
  let j := if (i <? 0)%Z then (n + i)%Z else i in
  if ((0 <=? j)%Z && (j <? n)%Z)%bool
  then match nth_error l (Z.to_nat j) with
       | Some a => Ok a
       | None => Raise (mk_exn IndexError (what ++ " index out of range"))
       end
  else Raise (mk_exn IndexError (what ++ " index out of range")).

(** [float(n)] on an integer raises [OverflowError] ("int too large to
    convert to float") from this magnitude on: half way between the largest
    double, 2^1024 - 2^971, and 2^1024. *)
Definition float_overflow_bound : Z := 2 ^ 1024 - 2 ^ 970.

Definition int_fits_float (z : Z) : bool :=
  (Z.abs z <? float_overflow_bound)%Z.


(** Float arithmetic of the model: exact, reduced. *)
Definition fadd (a b : Q) : Q := Qred (a + b).
Definition fdiv (a b : Q) : Q := Qred (a / b).
Definition fmax (a b : Q) : Q := if Qle_bool b a then a else b.

End Py.
Export Py.

(** ** The calibration lookup of [_fetch_mpp] *)

Module Mpp.

Section WithParser.

(** [float(s)] on a string is the interpreter's parser; [None] stands
    for the [ValueError] it raises on a malformed string. *)
Variable float_of_str : string -> option Q.

(** [try_parse]: [float(val)], with every exception turned into [None]:
    the [TypeError] of a value that is no number and no string, the
    [ValueError] of a malformed string, the [OverflowError] of an integer
    too large for a float. *)
Definition try_parse (val : pyval) : option Q :=
  match val with
  | PFloat q => Some q
  | PInt z => if int_fits_float z then Some (inject_Z z) else None
  | PBool b => Some (if b then 1%Q else 0%Q)
  | PStr s => float_of_str s
  | PNone | PList _ | PDict _ => None
  end.

(** The key of an entry under [parent_key]:
    [f"{parent_key}.{k}" if parent_key else k]. *)
Definition child_key (parent_key k : string) : string :=
  if String.eqb parent_key "" then k else parent_key ++ "." ++ k.

(** [flatten(d, parent_key)], writing into [flat_meta]: the items in
    order, a nested dict flattened under its key, any other value stored
    under the lowercased key (a later write replaces an earlier one). *)
Fixpoint flatten_val (d : pyval) (parent_key : string)
         (flat_meta : gmap string pyval) : gmap string pyval :=
  match d with
  | PDict items =>
      (fix items_loop (its : list (string * pyval))
           (flat_meta : gmap string pyval) : gmap string pyval :=
         match its with
         | [] => flat_meta
         | (k, v) :: rest =>
             let key := child_key parent_key k in
             items_loop rest
               match v with
               | PDict _ => flatten_val v key flat_meta
               | _ => <[lower key := v]> flat_meta
               end
         end) items flat_meta
  | _ => flat_meta
  end.

(** [flatten(metadata)] on the whole metadata: [d.items()] needs a dict. *)
Definition flatten (metadata : pyval) : result (gmap string pyval) :=
  match metadata with
  | PDict _ => Ok (flatten_val metadata "" ∅)
  | _ => Raise (mk_exn AttributeError "object has no attribute 'items'")
  end.

(** [flat_meta.get(k)]: Python [None] for a missing key. *)
Definition dict_get (flat_meta : gmap string pyval) (k : string) : pyval :=
  default PNone (flat_meta !! k).

Inductive axis := AxisX | AxisY.

(** The two axis variables of the lookup.  [assigned] is a ghost record
    of the loop: which axis variable was assigned from which key, newest
    first. *)
Record scan := mk_scan {
  mpp_x : option Q;
  mpp_y : option Q;
  assigned : list (axis * string)
}.

(** The custom keys, checked first. *)
Definition custom_lookup (flat_meta : gmap string pyval)
           (custom_keys : option (gmap string string)) : scan :=
  match custom_keys with
  | Some ck =>
      if bool_decide (ck ≠ ∅) then
        let x := match ck !! "mpp_x" with
                 | Some name => try_parse (dict_get flat_meta (lower name))
                 | None => None
                 end in
        let y := match ck !! "mpp_y" with
                 | Some name => try_parse (dict_get flat_meta (lower name))
                 | None => None
                 end in
        mk_scan x y []
      else mk_scan None None []
  | None => mk_scan None None []
  end.

Definition fallback_keys : list string :=
  [ "openslide.mpp-x"; "openslide.mpp-y";
    "tiff.resolution-x"; "tiff.resolution-y";
    "mpp"; "spacing"; "microns_per_pixel";
    "aperio.mpp"; "hamamatsu.mpp";
    "metadata.resolutions.level[0].spacing";
    "metadata.resolutions.level[0].physical_size.0" ].

(** The [if] / [elif] of one iteration. *)
Definition fallback_step (flat_meta : gmap string pyval) (key : string)
           (s : scan) : scan :=
  match mpp_x s, flat_meta !! key with
  | None, Some v =>
      mk_scan (try_parse v) (mpp_y s) ((AxisX, key) :: assigned s)
  | _, _ =>
      match mpp_y s, flat_meta !! key with
      | None, Some v =>
          mk_scan (mpp_x s) (try_parse v) ((AxisY, key) :: assigned s)
      | _, _ => s
      end
  end.

Definition both_found (s : scan) : bool :=
  match mpp_x s, mpp_y s with
  | Some _, Some _ => true
  | _, _ => false
  end.

(** [for key in fallback_keys: ...; if both found: break]. *)
Fixpoint fallback_loop (flat_meta : gmap string pyval)
         (keys : list string) (s : scan) : scan :=
  match keys with
  | [] => s
  | key :: rest =>
      let s' := fallback_step flat_meta key s in
      if both_found s' then s' else fallback_loop flat_meta rest s'
  end.

(** One axis mirrored to the other, then the average. *)
Definition mirror_and_average (s : scan) : option Q :=
  let x := mpp_x s in
  let y := mpp_y s in
  let y := match x, y with Some _, None => x | _, _ => y end in
  let x := match y, x with Some _, None => y | _, _ => x end in
  match x, y with
  | Some a, Some b => Some (fdiv (fadd a b) 2)
  | _, _ => None
  end.

(** The lookup from the flattened metadata on. *)
Definition resolve (flat_meta : gmap string pyval)
           (custom_keys : option (gmap string string)) : scan :=
  fallback_loop flat_meta fallback_keys
                (custom_lookup flat_meta custom_keys).

End WithParser.

End Mpp.

(** ** The libraries under the adapter *)

(** [img.resolutions], with its three entries. *)
Record resolutions := mk_resolutions {
  res_level_count : Z;
  res_level_downsamples : list Q;
  res_level_dimensions : list (Z * Z)
}.

(** An opened [cucim.CuImage]: what [size()], [resolutions] and [metadata]
    answer. *)
Record CuImage := mk_CuImage {
  cu_size : list Z;
  cu_resolutions : resolutions;
  cu_metadata : pyval
}.

(** A [PIL.Image.Image]: [size] is (width, height). *)
Record Image (pixels : Type) := mk_Image {
  im_size : Z * Z;
  im_mode : string;
  im_data : pixels
}.
Arguments mk_Image {pixels} _ _ _.
Arguments im_size {pixels} _.
Arguments im_mode {pixels} _.
Arguments im_data {pixels} _.

(** CuCIM, CuPy, NumPy, PyTorch, Pillow, GeoPandas and the interpreter's
    [json] and [float]: the calls the adapter makes, with the data they
    exchange left abstract. *)
Class ExternalLibs := {
  (** [from cucim import CuImage]: [Ok] when the module imports, else the
      [ImportError] the statement raises *)
  cucim_import : result unit;
  cuarray : Type;
  ndarray : Type;
  tensor : Type;
  pixels : Type;
  geodataframe : Type;
  (** [CuImage(path)] *)
  CuImage_open : string -> result CuImage;
  (** [img.read_region(location=, level=, size=, device=)] *)
  cu_read_region : CuImage -> Z * Z -> Z -> Z * Z -> string -> result cuarray;
  (** [cp.asnumpy], [torch.as_tensor(region, device=)], [torch.from_numpy] *)
  cp_asnumpy : cuarray -> result ndarray;
  torch_as_tensor : cuarray -> string -> result tensor;
  torch_from_numpy : ndarray -> result tensor;
  (** [Image.fromarray] *)
  Image_fromarray : ndarray -> result (Image pixels);
  (** the pixel work of [Image.convert] (from mode, to mode) and of
      [Image.resize] with bilinear resampling (from size, to size) *)
  pil_convert_pixels : string -> string -> pixels -> pixels;
  pil_bilinear_pixels : Z * Z -> Z * Z -> pixels -> pixels;
  (** [gpd.read_file] *)
  gpd_read_file : string -> result geodataframe;
  (** [json.loads], and [float] on a string *)
  json_loads : string -> result pyval;
  float_of_str : string -> option Q
}.

Module PIL.
Section WithLibs.
Context {L : ExternalLibs}.

(** [im.convert(mode)]: same size, the new mode. *)
Definition convert (im : Image pixels) (mode : string) : Image pixels :=
  mk_Image (im_size im) mode
           (pil_convert_pixels (im_mode im) mode (im_data im)).

(** [im.resize(size, resample=Image.BILINEAR)]: Pillow takes [size] as
    (width, height), refuses a side below 1 and returns an image of
    that size. *)
Definition resize (im : Image pixels) (size : Z * Z)
  : result (Image pixels) :=
  if ((fst size <? 1)%Z || (snd size <? 1)%Z)%bool
  then Raise (mk_exn ValueError "height and width must be > 0")
  else Ok (mk_Image size (im_mode im)
                    (pil_bilinear_pixels (im_size im) size (im_data im))).
End WithLibs.
End PIL.

(** ** The adapter state *)

Section Adapter.
Context {L : ExternalLibs}.

(** The attributes of a [CuCIMWSI] instance.  An attribute holding Python
    [None] is [None] here. *)
Record adapter := mk_adapter {
  slide_path : string;
  tissue_seg_path : option string;
  custom_mpp_keys : option (gmap string string);
  lazy_init : bool;
  img : option CuImage;
  dimensions : option (Z * Z);
  width : option Z;
  height : option Z;
  level_count : option Z;
  level_downsamples : option (list Q);
  level_dimensions : option (list (Z * Z));
  properties : option pyval;
  mpp : option Q;
  mag : option Z;
  gdf_contours : option geodataframe
}.

Definition set_lazy_init (v : bool) (a : adapter) : adapter :=
  mk_adapter (slide_path a) (tissue_seg_path a) (custom_mpp_keys a) v
    (img a) (dimensions a) (width a) (height a) (level_count a)
    (level_downsamples a) (level_dimensions a) (properties a) (mpp a)
    (mag a) (gdf_contours a).
Definition set_img (v : option CuImage) (a : adapter) : adapter :=
  mk_adapter (slide_path a) (tissue_seg_path a) (custom_mpp_keys a)
    (lazy_init a) v (dimensions a) (width a) (height a) (level_count a)
    (level_downsamples a) (level_dimensions a) (properties a) (mpp a)
    (mag a) (gdf_contours a).
Definition set_dimensions (v : option (Z * Z)) (a : adapter) : adapter :=
  mk_adapter (slide_path a) (tissue_seg_path a) (custom_mpp_keys a)
    (lazy_init a) (img a) v (width a) (height a) (level_count a)
    (level_downsamples a) (level_dimensions a) (properties a) (mpp a)
    (mag a) (gdf_contours a).
Definition set_width (v : option Z) (a : adapter) : adapter :=
  mk_adapter (slide_path a) (tissue_seg_path a) (custom_mpp_keys a)
    (lazy_init a) (img a) (dimensions a) v (height a) (level_count a)
    (level_downsamples a) (level_dimensions a) (properties a) (mpp a)
    (mag a) (gdf_contours a).
Definition set_height (v : option Z) (a : adapter) : adapter :=
  mk_adapter (slide_path a) (tissue_seg_path a) (custom_mpp_keys a)
    (lazy_init a) (img a) (dimensions a) (width a) v (level_count a)
    (level_downsamples a) (level_dimensions a) (properties a) (mpp a)
    (mag a) (gdf_contours a).
Definition set_level_count (v : option Z) (a : adapter) : adapter :=
  mk_adapter (slide_path a) (tissue_seg_path a) (custom_mpp_keys a)
    (lazy_init a) (img a) (dimensions a) (width a) (height a) v
    (level_downsamples a) (level_dimensions a) (properties a) (mpp a)
    (mag a) (gdf_contours a).
Definition set_level_downsamples (v : option (list Q)) (a : adapter)
  : adapter :=
  mk_adapter (slide_path a) (tissue_seg_path a) (custom_mpp_keys a)
    (lazy_init a) (img a) (dimensions a) (width a) (height a)
    (level_count a) v (level_dimensions a) (properties a) (mpp a)
    (mag a) (gdf_contours a).
Definition set_level_dimensions (v : option (list (Z * Z))) (a : adapter)
  : adapter :=
  mk_adapter (slide_path a) (tissue_seg_path a) (custom_mpp_keys a)
    (lazy_init a) (img a) (dimensions a) (width a) (height a)
    (level_count a) (level_downsamples a) v (properties a) (mpp a)
    (mag a) (gdf_contours a).
Definition set_properties (v : option pyval) (a : adapter) : adapter :=
  mk_adapter (slide_path a) (tissue_seg_path a) (custom_mpp_keys a)
    (lazy_init a) (img a) (dimensions a) (width a) (height a)
    (level_count a) (level_downsamples a) (level_dimensions a) v (mpp a)
    (mag a) (gdf_contours a).
Definition set_mpp (v : option Q) (a : adapter) : adapter :=
  mk_adapter (slide_path a) (tissue_seg_path a) (custom_mpp_keys a)
    (lazy_init a) (img a) (dimensions a) (width a) (height a)
    (level_count a) (level_downsamples a) (level_dimensions a)
    (properties a) v (mag a) (gdf_contours a).
Definition set_mag (v : option Z) (a : adapter) : adapter :=
  mk_adapter (slide_path a) (tissue_seg_path a) (custom_mpp_keys a)
    (lazy_init a) (img a) (dimensions a) (width a) (height a)
    (level_count a) (level_downsamples a) (level_dimensions a)
    (properties a) (mpp a) v (gdf_contours a).
Definition set_gdf_contours (v : option geodataframe) (a : adapter)
  : adapter :=
  mk_adapter (slide_path a) (tissue_seg_path a) (custom_mpp_keys a)
    (lazy_init a) (img a) (dimensions a) (width a) (height a)
    (level_count a) (level_downsamples a) (level_dimensions a)
    (properties a) (mpp a) (mag a) v.

(** The calls that leave the process: opening the slide, decoding a
    region, reading the contour file. *)
Inductive event :=
| EvOpen (path : string)
| EvReadRegion (location : Z * Z) (level : Z) (size : Z * Z)
               (device : string)
| EvReadFile (path : string).

(** The adapter together with the calls made so far, newest first. *)
Record world := mk_world {
  self : adapter;
  calls : list event
}.

(** *** The monad of a method body *)

Definition M (A : Type) : Type := world -> result A * world.

Definition ret {A} (a : A) : M A := fun w => (Ok a, w).

Definition bind {A B} (m : M A) (k : A -> M B) : M B :=
  fun w => match m w with
           | (Ok a, w') => k a w'
           | (Raise e, w') => (Raise e, w')
           end.

Definition raise {A} (c : exn_class) (msg : string) : M A :=
  fun w => (Raise (mk_exn c msg), w).

(** A pure computation that may raise. *)
Definition lift {A} (r : result A) : M A := fun w => (r, w).

Definition get_self : M adapter := fun w => (Ok (self w), w).

(** [self.attr = v] *)
Definition assign (upd : adapter -> adapter) : M unit :=
  fun w => (Ok tt, mk_world (upd (self w)) (calls w)).

(** A call that leaves the process. *)
Definition extern {A} (ev : event) (r : result A) : M A :=
  fun w => (r, mk_world (self w) (ev :: calls w)).

(** [try: body except <classes> as e: handler(e)] *)
Definition try_except {A} (body : M A) (catches : exn_class -> bool)
           (handler : exn -> M A) : M A :=
  fun w => match body w with
           | (Raise e, w') =>
               if catches (exn_cls e) then handler e w' else (Raise e, w')
           | (Ok a, w') => (Ok a, w')
           end.

(** Reading an attribute of an object that is [None]. *)
Definition attr_of {A} (what : string) (o : option A) : M A :=
  match o with
  | Some a => ret a
  | None => raise AttributeError
                  ("'NoneType' object has no attribute '" ++ what ++ "'")
  end.

End Adapter.

Declare Scope py_scope.
Delimit Scope py_scope with py.
Notation "x <- m ;; k" := (bind m (fun x => k))
  (at level 100, m at next level, right associativity) : py_scope.
Notation "m ;;; k" := (bind m (fun _ => k))
  (at level 100, right associativity) : py_scope.

(** ** The methods of [CuCIMWSI] *)

(** The methods inherited from the base class [WSI], which the adapter
    calls on itself; both read the adapter and return. *)
Class WSIBase {L : ExternalLibs} := {
  _fetch_magnification :
    adapter -> option (gmap string string) -> result Z;
  get_best_level_and_custom_downsample :
    adapter -> Q -> result (Z * Q)
}.

(** What [read_region] returns, by [read_as]. *)
Inductive region {L : ExternalLibs} :=
| AsNumpy (a : ndarray)
| AsTorch (t : tensor)
| AsPIL (im : Image pixels).

Module CuCIMWSI.
Section Methods.
Context {L : ExternalLibs} {B : WSIBase}.
Local Open Scope py_scope.

(** [a / b] on integers: true division. *)
Definition truediv (a b : Z) : result Q :=
  if (b =? 0)%Z
  then Raise (mk_exn ZeroDivisionError "division by zero")
  else Ok (fdiv (inject_Z a) (inject_Z b)).

(** [metadata = self.img.metadata], parsed when it is a JSON string, and
    flattened into [flat_meta]. *)
Definition flat_meta_of (metadata : pyval)
  : result (gmap string pyval) :=
  match
    match metadata with
    | PStr s => json_loads s
    | _ => Ok metadata
    end
  with
  | Raise e => Raise e
  | Ok metadata => Mpp.flatten metadata
  end.

(** The body of [_fetch_mpp] once [self.img.metadata] is in hand. *)
Definition fetch_mpp_of (metadata : pyval)
           (custom_keys : option (gmap string string))
  : result (option Q) :=
  match flat_meta_of metadata with
  | Raise e => Raise e
  | Ok flat_meta =>
      Ok (Mpp.mirror_and_average
            (Mpp.resolve float_of_str flat_meta custom_keys))
  end.

Definition _fetch_mpp (custom_keys : option (gmap string string))
  : M (option Q) :=
  s <- get_self ;;
  h <- attr_of "metadata" (img s) ;;
  lift (fetch_mpp_of (cu_metadata h) custom_keys).

(** The statements of [_lazy_initialize] inside the outer [try], from
    [self.img = CuImage(self.slide_path)] up to and including
    [self.lazy_init = True]. *)
Definition open_and_read_metadata : M unit :=
  s <- get_self ;;
  h <- extern (EvOpen (slide_path s)) (CuImage_open (slide_path s)) ;;
  assign (set_img (Some h)) ;;;
  d0 <- lift (index "list" (cu_size h) 0) ;;
  d1 <- lift (index "list" (cu_size h) 1) ;;
  assign (set_dimensions (Some (d0, d1))) ;;;
  assign (set_width (Some d0)) ;;;
  assign (set_height (Some d1)) ;;;
  assign (set_level_count
            (Some (res_level_count (cu_resolutions h)))) ;;;
  assign (set_level_downsamples
            (Some (res_level_downsamples (cu_resolutions h)))) ;;;
  assign (set_level_dimensions
            (Some (res_level_dimensions (cu_resolutions h)))) ;;;
  assign (set_properties (Some (cu_metadata h))) ;;;
  s <- get_self ;;
  match mpp s with
  | None =>
      m <- _fetch_mpp (custom_mpp_keys s) ;;
      assign (set_mpp m)
  | Some _ => ret tt
  end ;;;
  s <- get_self ;;
  g <- lift (_fetch_magnification s (custom_mpp_keys s)) ;;
  assign (set_mag (Some g)) ;;;
  assign (set_lazy_init true).

(** [if self.tissue_seg_path is not None: try: ... except
    FileNotFoundError: raise FileNotFoundError(...)]. *)
Definition load_contours : M unit :=
  s <- get_self ;;
  match tissue_seg_path s with
  | Some p =>
      try_except
        (g <- extern (EvReadFile p) (gpd_read_file p) ;;
         assign (set_gdf_contours (Some g)))
        is_FileNotFoundError
        (fun _ =>
           raise FileNotFoundError
                 ("Tissue segmentation file not found: " ++ p))
  | None => ret tt
  end.

(** [_lazy_initialize]: the import of [CuImage] from [cucim], which runs
    on every call, above the guard and outside the [try]; then the guard
    [if not self.lazy_init], and under it the two parts above inside
    [try: ... except Exception as e: raise Exception(f"Error initializing
    WSI: {e}")]. *)
Definition _lazy_initialize : M unit :=
  lift cucim_import ;;;
  s <- get_self ;;
  if negb (lazy_init s) then
    try_except
      (open_and_read_metadata ;;; load_contours)
      is_Exception
      (fun e =>
         raise PlainException ("Error initializing WSI: " ++ exn_str e))
  else ret tt.

Definition read_region (location : Z * Z) (level : Z) (size : Z * Z)
           (device : string) (read_as : string) : M region :=
  s <- get_self ;;
  h <- attr_of "read_region" (img s) ;;
  region <- extern (EvReadRegion location level size device)
                   (cu_read_region h location level size device) ;;
  if String.eqb read_as "torch" then
    if contains "cuda" device then
      t <- lift (torch_as_tensor region device) ;;
      ret (AsTorch t)
    else
      a <- lift (cp_asnumpy region) ;;
      t <- lift (torch_from_numpy a) ;;
      ret (AsTorch t)
  else if String.eqb read_as "numpy" then
    a <- lift (cp_asnumpy region) ;;
    ret (AsNumpy a)
  else if String.eqb read_as "pil" then
    a <- lift (cp_asnumpy region) ;;
    im <- lift (Image_fromarray a) ;;
    ret (AsPIL (PIL.convert im "RGB"))
  else
    raise ValueError ("Unsupported read_as value: " ++ read_as).

(** [x.convert("RGB")] on what [read_region] returned. *)
Definition convert_region (r : region) : M (Image pixels) :=
  match r with
  | AsPIL im => ret (PIL.convert im "RGB")
  | AsNumpy _ | AsTorch _ =>
      raise AttributeError "object has no attribute 'convert'"
  end.

(** An operand of [/] that is [None]. *)
Definition operand (o : option Z) : M Z :=
  match o with
  | Some z => ret z
  | None => raise TypeError "unsupported operand type(s) for /"
  end.

Definition subscriptable {A} (o : option A) : M A :=
  match o with
  | Some a => ret a
  | None => raise TypeError "'NoneType' object is not subscriptable"
  end.

Definition get_thumbnail (size : Z * Z) : M (Image pixels) :=
  let '(target_width, target_height) := size in
  s <- get_self ;;
  w <- operand (width s) ;;
  downsample_x <- lift (truediv w target_width) ;;
  h <- operand (height s) ;;
  downsample_y <- lift (truediv h target_height) ;;
  let desired_downsample := fmax downsample_x downsample_y in
  best <- lift (get_best_level_and_custom_downsample
                  s desired_downsample) ;;
  let level := fst best in
  dims <- subscriptable (level_dimensions s) ;;
  lvl_dims <- lift (index "list" dims level) ;;
  let '(level_width, level_height) := lvl_dims in
  r <- read_region (0, 0) level (level_width, level_height)
                   "cpu" "pil" ;;
  region <- convert_region r ;;
  lift (PIL.resize region (snd size, fst size)).

Definition get_dimensions : M (option (Z * Z)) :=
  s <- get_self ;;
  ret (dimensions s).

End Methods.
End CuCIMWSI.

(** ** Statements taken from the specification *)

Module Spec.
Section WithLibs.
Context {L : ExternalLibs} {B : WSIBase}.

(** The formats [read_region] documents. *)
Definition supported_format (read_as : string) : bool :=
  (String.eqb read_as "numpy" || String.eqb read_as "torch"
   || String.eqb read_as "pil")%bool.

(** "An unrecognized format value raises an invalid-argument failure
    without performing any decode": a [ValueError], and no call added
    to the history. *)
Definition rejects_format_without_decode : Prop :=
  forall (location : Z * Z) (level : Z) (size : Z * Z)
         (device read_as : string) (w : world),
    supported_format read_as = false ->
    (exists msg,
        fst (CuCIMWSI.read_region location level size device read_as w)
        = Raise (mk_exn ValueError msg))
    /\ calls (snd (CuCIMWSI.read_region location level size device
                                        read_as w))
       = calls w.

(** The 3-channel image of a host array: what the PIL output is to be,
    given the NumPy output. *)
Definition rgb_image_of_array (a : ndarray) : result region :=
  match Image_fromarray a with
  | Ok im => Ok (AsPIL (PIL.convert im "RGB"))
  | Raise e => Raise e
  end.

(** The calibration-relevant keys: the lowercased names the custom keys
    give, and the fallback keys. *)
Definition calibration_keys (custom_keys : option (gmap string string))
  : list string :=
  match custom_keys with
  | Some ck =>
      option_list (lower <$> ck !! "mpp_x")
      ++ option_list (lower <$> ck !! "mpp_y")
  | None => []
  end ++ Mpp.fallback_keys.


End WithLibs.
End Spec.

(** ** A small instance of the libraries

    Arrays are lists of integers; one slide file and one contour file
    exist. *)

Module Demo.

Definition metadata : pyval :=
  PDict [ ("cucim", PDict [("associated_images", PList [])]);
          ("openslide", PDict [ ("mpp-x", PFloat (25 # 100));
                                ("mpp-y", PFloat (26 # 100)) ]) ].

Definition slide : CuImage :=
  mk_CuImage [4000; 3000; 3]
    (mk_resolutions 2 [1%Q; 4%Q] [(4000, 3000); (1000, 750)])
    metadata.

#[local] Instance libs : ExternalLibs := {|
  cucim_import := Ok tt;
  cuarray := list Z;
  ndarray := list Z;
  tensor := list Z * string;
  pixels := list Z;
  geodataframe := list string;
  CuImage_open path :=
    if String.eqb path "slide.svs" then Ok slide
    else Raise (mk_exn FileNotFoundError ("No such file: " ++ path));
  cu_read_region h location level size device :=
    if (level <? res_level_count (cu_resolutions h))%Z
    then Ok [fst size; snd size]
    else Raise (mk_exn RuntimeError "invalid level");
  cp_asnumpy a := Ok a;
  torch_as_tensor a device := Ok (a, device);
  torch_from_numpy a := Ok (a, "cpu");
  Image_fromarray a :=
    match a with
    | [w; h] => Ok (mk_Image (w, h) "RGBA" a)
    | _ => Raise (mk_exn TypeError "Cannot handle this data type")
    end;
  pil_convert_pixels _ _ px := px;
  pil_bilinear_pixels _ size _ := [fst size; snd size];
  gpd_read_file path :=
    if String.eqb path "contours.geojson" then Ok ["tissue"]
    else Raise (mk_exn FileNotFoundError ("No such file: " ++ path));
  json_loads _ := Raise (mk_exn ValueError "Expecting value");
  float_of_str _ := None
|}.

#[local] Instance base : WSIBase := {|
  _fetch_magnification a _ :=
    match mpp a with
    | Some _ => Ok 40%Z
    | None => Raise (mk_exn ValueError "Unable to determine magnification")
    end;
  get_best_level_and_custom_downsample a downsample :=
    if Qle_bool 4 downsample then Ok (1%Z, fdiv downsample 4)
    else Ok (0%Z, downsample)
|}.

(** A fresh adapter on [slide_path], before initialization. *)
Definition fresh (slide_path : string) (tissue_seg_path : option string)
           (custom_mpp_keys : option (gmap string string)) : world :=
  mk_world
    (mk_adapter slide_path tissue_seg_path custom_mpp_keys false
                None None None None None None None None None None None)
    [].

(** The adapter on the existing slide, after [_lazy_initialize]. *)
Definition ready : world :=
  snd (CuCIMWSI._lazy_initialize (fresh "slide.svs" None None)).

(** An adapter whose handle answers [metadata] for its metadata. *)
Definition opened (metadata : pyval) : world :=
  mk_world
    (set_img
       (Some (mk_CuImage (cu_size slide) (cu_resolutions slide) metadata))
       (self ready))
    (calls ready).



(** Metadata with a key of the caller's own next to the OpenSlide pair,
    and the custom keys naming it for the x axis. *)
Definition metadata_custom : pyval :=
  PDict [ ("scanner", PDict [("PixelSize", PFloat (1 # 2))]);
          ("openslide", PDict [ ("mpp-x", PFloat (25 # 100));
                                ("mpp-y", PFloat (26 # 100)) ]) ].

Definition custom_x : gmap string string :=
  {[ "mpp_x" := "Scanner.PixelSize" ]}.

End Demo.

(** ** The fallback loop, read as a priority list *)

Module Priority.
Section WithParser.
Variable float_of_str : string -> option Q.

(** The values the keys of [keys] give, in the order of [keys]: a key
    counts when it is present and its value parses. *)
Definition parsed_values (flat_meta : gmap string pyval)
           (keys : list string) : list Q :=
  omap (fun k => flat_meta !! k ≫= Mpp.try_parse float_of_str) keys.

(** Two variables filled from a list of values: a variable that holds a
    value keeps it, an empty one takes the next value of the list, [x]
    before [y]. *)
Definition fill (x y : option Q) (vals : list Q) : option Q * option Q :=
  match x, y with
  | Some _, Some _ => (x, y)
  | Some _, None => (x, head vals)
  | None, Some _ => (head vals, y)
  | None, None => (head vals, head (tail vals))
  end.

(** The average of the two variables, one standing for both when the other
    is empty. *)
Definition average_of (xy : option Q * option Q) : option Q :=
  match xy with
  | (Some a, Some b) => Some (fdiv (fadd a b) 2)
  | (Some a, None) => Some (fdiv (fadd a a) 2)
  | (None, Some b) => Some (fdiv (fadd b b) 2)
  | (None, None) => None
  end.

(** The two axis variables of a scan. *)
Definition axes (s : Mpp.scan) : option Q * option Q :=
  (Mpp.mpp_x s, Mpp.mpp_y s).

(** Two flattened metadata agree on the keys of [keys]. *)
Definition agree_on (keys : list string) (m1 m2 : gmap string pyval)
  : Prop :=
  Forall (fun k => m1 !! k = m2 !! k) keys.

End WithParser.
End Priority.

(** Whether a value is a dict. *)
Definition is_dict (v : pyval) : bool :=
  match v with PDict _ => true | _ => false end.

(** Every key is lowercase and no value is a dict. *)
Definition flat_ok (flat : gmap string pyval) : Prop :=
  forall k v, flat !! k = Some v -> lower k = k /\ is_dict v = false.

(** ** More runs of the instance [Demo] *)

Module Cases.

(** Metadata with the x key of OpenSlide, the x key of TIFF and ['mpp'],
    and no y key. *)
Definition metadata_x_keys : pyval :=
  PDict [ ("openslide", PDict [("mpp-x", PFloat (25 # 100))]);
          ("tiff", PDict [("resolution-x", PFloat (1 # 2))]);
          ("mpp", PFloat (1 # 1)) ].

(** Metadata whose calibration keys hold text only. *)
Definition metadata_text : pyval :=
  PDict [ ("mpp", PStr "unknown");
          ("spacing", PList [PFloat (1 # 4)]) ].

(** Metadata with two keys of the caller's own next to a fallback key. *)
Definition metadata_two_custom : pyval :=
  PDict [ ("scanner", PDict [ ("PixelSizeX", PFloat (1 # 2));
                              ("PixelSizeY", PFloat (1 # 4)) ]);
          ("mpp", PFloat (3 # 1)) ].

Definition custom_xy : gmap string string :=
  {[ "mpp_x" := "Scanner.PixelSizeX"; "mpp_y" := "scanner.pixelsizey" ]}.

(** The same top-level key written twice, in two cases. *)
Definition metadata_collision : list (string * pyval) :=
  [ ("MPP", PFloat (1 # 4)); ("vendor", PStr "acme") ].

(** A fresh adapter of [Demo] with a calibration given by the caller. *)
Definition fresh_with_mpp (m : Q) : world :=
  mk_world
    (set_mpp (Some m) (self (Demo.fresh "slide.svs" None None)))
    [].

(** The initialized adapter of [Demo] with the first level only in
    [level_dimensions]. *)
Definition one_level : world :=
  mk_world (set_level_dimensions (Some [(4000, 3000)%Z]) (self Demo.ready))
           (calls Demo.ready).


End Cases.

(** ** The single-key sentence of the specification, as it is written *)

Module Stated.
Section WithLibs.
Context {L : ExternalLibs}.



End WithLibs.
End Stated.

(** * Properties *)

(** ** The calibration lookup *)

Module MppFacts.
Import Mpp.

Section WithParser.
Variable float_of_str : string -> option Q.

Abbreviation try_parse := (try_parse float_of_str).
Abbreviation fallback_step := (fallback_step float_of_str).
Abbreviation fallback_loop := (fallback_loop float_of_str).
Abbreviation custom_lookup := (custom_lookup float_of_str).
Abbreviation resolve := (resolve float_of_str).

Lemma fallback_step_absent (flat : gmap string pyval) key s :
  flat !! key = None -> fallback_step flat key s = s.
Proof.
  intros H. unfold Mpp.fallback_step. rewrite H.
  destruct (mpp_x s), (mpp_y s); reflexivity.
Qed.

Lemma fallback_step_both (flat : gmap string pyval) key s :
  both_found s = true -> fallback_step flat key s = s.
Proof.
  unfold both_found, Mpp.fallback_step.
  destruct (mpp_x s), (mpp_y s); try discriminate.
  intros _. destruct (flat !! key); reflexivity.
Qed.



Lemma custom_lookup_assigned flat ck :
  assigned (custom_lookup flat ck) = [].
Proof.
  unfold Mpp.custom_lookup.
  destruct ck as [ck|]; [|reflexivity].
  destruct (bool_decide (ck ≠ ∅)); reflexivity.
Qed.

Lemma scan_eta (s : scan) :
  s = mk_scan (mpp_x s) (mpp_y s) (assigned s).
Proof. destruct s; reflexivity. Qed.


(** Equal rationals average to the same reduced fraction. *)
Lemma average_compat (a a' b b' : Q) :
  a == a' -> b == b' -> fdiv (fadd a b) 2 = fdiv (fadd a' b') 2.
Proof.
  intros Ha Hb. unfold fdiv, fadd. apply Qred_complete.
  rewrite !Qred_correct, Ha, Hb. reflexivity.
Qed.

(** The [if] branch: [mpp_x] is still [None] and the key is present. *)
Lemma fallback_step_x (flat : gmap string pyval) key v y log :
  flat !! key = Some v ->
  fallback_step flat key (mk_scan None y log)
  = mk_scan (try_parse v) y ((AxisX, key) :: log).
Proof. intros H. unfold Mpp.fallback_step. cbn. rewrite H. reflexivity. Qed.

(** The [elif] branch: [mpp_x] is set, [mpp_y] is not, the key is
    present. *)
Lemma fallback_step_y (flat : gmap string pyval) key v qx log :
  flat !! key = Some v ->
  fallback_step flat key (mk_scan (Some qx) None log)
  = mk_scan (Some qx) (try_parse v) ((AxisY, key) :: log).
Proof. intros H. unfold Mpp.fallback_step. cbn. rewrite H. reflexivity. Qed.

Lemma fallback_loop_cons (flat : gmap string pyval) key rest s :
  fallback_loop flat (key :: rest) s
  = if both_found (fallback_step flat key s)
    then fallback_step flat key s
    else fallback_loop flat rest (fallback_step flat key s).
Proof. reflexivity. Qed.

(** With no custom keys and both OpenSlide keys parsing, the x key goes
    to [mpp_x], the y key to [mpp_y], and the loop stops. *)
Lemma resolve_openslide_pair (flat : gmap string pyval) vx vy qx qy :
  flat !! "openslide.mpp-x" = Some vx -> try_parse vx = Some qx ->
  flat !! "openslide.mpp-y" = Some vy -> try_parse vy = Some qy ->
  resolve flat None
  = mk_scan (Some qx) (Some qy)
            [(AxisY, "openslide.mpp-y"); (AxisX, "openslide.mpp-x")].
Proof.
  intros Hx Hpx Hy Hpy.
  unfold Mpp.resolve, fallback_keys, Mpp.custom_lookup.
  rewrite fallback_loop_cons, (fallback_step_x _ _ _ _ _ Hx), Hpx.
  cbn [both_found mpp_x mpp_y].
  rewrite fallback_loop_cons, (fallback_step_y _ _ _ _ _ Hy), Hpy.
  reflexivity.
Qed.

(** When the custom keys give [mpp_x] only, the first fallback key,
    the x key of OpenSlide, lands in [mpp_y] and ends the loop. *)
Lemma resolve_custom_x_then_openslide_x
      (flat : gmap string pyval) ck qx vx q :
  mpp_x (custom_lookup flat ck) = Some qx ->
  mpp_y (custom_lookup flat ck) = None ->
  flat !! "openslide.mpp-x" = Some vx -> try_parse vx = Some q ->
  resolve flat ck
  = mk_scan (Some qx) (Some q) [(AxisY, "openslide.mpp-x")].
Proof.
  intros Hcx Hcy Hx Hpx.
  unfold Mpp.resolve, fallback_keys.
  rewrite (scan_eta (custom_lookup flat ck)), Hcx, Hcy,
    custom_lookup_assigned.
  rewrite fallback_loop_cons, (fallback_step_y _ _ _ _ _ Hx), Hpx.
  reflexivity.
Qed.

(** *** One key only, or none *)









End WithParser.
End MppFacts.

(** ** The methods *)

Module CuCIMWSIFacts.
Import CuCIMWSI.

Section WithLibs.
Context {L : ExternalLibs} {B : WSIBase}.

(** *** [_fetch_mpp] *)

Lemma fetch_mpp_unfold ck (w : world) :
  _fetch_mpp ck w
  = (match img (self w) with
     | Some h => fetch_mpp_of (cu_metadata h) ck
     | None =>
         Raise (mk_exn AttributeError
                  "'NoneType' object has no attribute 'metadata'")
     end, w).
Proof.
  unfold _fetch_mpp, bind, get_self, attr_of, lift, ret, raise.
  destruct (img (self w)); reflexivity.
Qed.

Lemma fetch_mpp_run ck (w : world) h flat :
  img (self w) = Some h ->
  flat_meta_of (cu_metadata h) = Ok flat ->
  _fetch_mpp ck w
  = (Ok (Mpp.mirror_and_average (Mpp.resolve float_of_str flat ck)), w).
Proof.
  intros Hh Hf. rewrite fetch_mpp_unfold, Hh.
  unfold fetch_mpp_of. rewrite Hf. reflexivity.
Qed.

(** C4.  When the flattened metadata holds ['openslide.mpp-x'] with
    value 0.25 and ['openslide.mpp-y'] with value 0.26, and the caller
    gives no custom keys, [_fetch_mpp] returns 0.255 (the fraction
    51/200) and leaves the adapter as it was. *)
Theorem fetch_mpp_openslide_average (w : world) h flat vx vy qx qy :
  img (self w) = Some h ->
  flat_meta_of (cu_metadata h) = Ok flat ->
  flat !! "openslide.mpp-x" = Some vx ->
  Mpp.try_parse float_of_str vx = Some qx -> qx == 0.25 ->
  flat !! "openslide.mpp-y" = Some vy ->
  Mpp.try_parse float_of_str vy = Some qy -> qy == 0.26 ->
  _fetch_mpp None w = (Ok (Some (Qred 0.255)), w).
Proof.
  intros Hh Hf Hx Hpx Ex Hy Hpy Ey.
  rewrite (fetch_mpp_run _ _ _ _ Hh Hf).
  rewrite (MppFacts.resolve_openslide_pair _ _ _ _ _ _ Hx Hpx Hy Hpy).
  unfold Mpp.mirror_and_average. cbn [Mpp.mpp_x Mpp.mpp_y].
  rewrite (MppFacts.average_compat _ _ _ _ Ex Ey). reflexivity.
Qed.


(** C6.  There are metadata and custom keys for which the fallback loop
    gives the value of the x-axis key to the y-axis variable and never
    reads the y-axis key: the custom keys resolve [mpp_x] and not
    [mpp_y], the metadata holds both ['openslide.mpp-x'] and
    ['openslide.mpp-y'] with different values, the loop assigns [mpp_y]
    from ['openslide.mpp-x'] and from nothing else, and whatever value
    stands under ['openslide.mpp-y'] the outcome is the same. *)
Theorem fallback_loop_crosses_axes :
  exists (metadata : pyval) (ck : gmap string string)
         (flat : gmap string pyval) (qc qx qy : Q),
    Mpp.flatten metadata = Ok flat
    /\ flat !! "openslide.mpp-x" = Some (PFloat qx)
    /\ flat !! "openslide.mpp-y" = Some (PFloat qy)
    /\ ~ qx == qy
    /\ Mpp.mpp_x (Mpp.custom_lookup float_of_str flat (Some ck)) = Some qc
    /\ Mpp.mpp_y (Mpp.custom_lookup float_of_str flat (Some ck)) = None
    /\ Mpp.resolve float_of_str flat (Some ck)
       = Mpp.mk_scan (Some qc) (Some qx)
                     [(Mpp.AxisY, "openslide.mpp-x")]
    /\ forall v : pyval,
        Mpp.resolve float_of_str (<["openslide.mpp-y" := v]> flat)
                    (Some ck)
        = Mpp.resolve float_of_str flat (Some ck).
Proof.
  exists Demo.metadata_custom, Demo.custom_x,
    (Mpp.flatten_val Demo.metadata_custom "" ∅),
    (1 # 2)%Q, (25 # 100)%Q, (26 # 100)%Q.
  assert (Hx : Mpp.flatten_val Demo.metadata_custom "" ∅
               !! "openslide.mpp-x" = Some (PFloat (25 # 100)))
    by (vm_compute; reflexivity).
  assert (Hcx : forall flat' : gmap string pyval,
             flat' !! "scanner.pixelsize" = Some (PFloat (1 # 2)) ->
             Mpp.mpp_x (Mpp.custom_lookup float_of_str flat'
                                          (Some Demo.custom_x))
             = Some (1 # 2)%Q).
  { intros flat' E. unfold Mpp.custom_lookup.
    replace (bool_decide (Demo.custom_x ≠ ∅)) with true
      by (vm_compute; reflexivity).
    replace (Demo.custom_x !! "mpp_x") with (Some "Scanner.PixelSize")
      by (vm_compute; reflexivity).
    cbn [Mpp.mpp_x]. unfold Mpp.dict_get.
    replace (lower "Scanner.PixelSize") with "scanner.pixelsize"
      by (vm_compute; reflexivity).
    rewrite E. reflexivity. }
  assert (Hcy : forall flat' : gmap string pyval,
             Mpp.mpp_y (Mpp.custom_lookup float_of_str flat'
                                          (Some Demo.custom_x))
             = None).
  { intros flat'. unfold Mpp.custom_lookup.
    replace (bool_decide (Demo.custom_x ≠ ∅)) with true
      by (vm_compute; reflexivity).
    replace (Demo.custom_x !! "mpp_y") with (@None string)
      by (vm_compute; reflexivity).
    reflexivity. }
  assert (Hc : Mpp.flatten_val Demo.metadata_custom "" ∅
               !! "scanner.pixelsize" = Some (PFloat (1 # 2)))
    by (vm_compute; reflexivity).
  split; [reflexivity|].
  split; [exact Hx|].
  split; [vm_compute; reflexivity|].
  split; [intros E; vm_compute in E; discriminate|].
  split; [apply Hcx, Hc|].
  split; [apply Hcy|].
  split.
  - apply (MppFacts.resolve_custom_x_then_openslide_x
             _ _ _ _ _ _ (Hcx _ Hc) (Hcy _) Hx eq_refl).
  - intros v.
    rewrite (MppFacts.resolve_custom_x_then_openslide_x
               _ _ _ _ _ _ (Hcx _ Hc) (Hcy _) Hx eq_refl).
    apply (MppFacts.resolve_custom_x_then_openslide_x
             _ _ (Some Demo.custom_x) (1 # 2)%Q (PFloat (25 # 100))).
    + apply Hcx. rewrite lookup_insert_ne by discriminate. exact Hc.
    + apply Hcy.
    + rewrite lookup_insert_ne by discriminate. exact Hx.
    + reflexivity.
Qed.

(** C7.  [_fetch_mpp] changes nothing: the adapter and the call history
    after the call are those before it; a second call returns what the
    first returned; and the result is the same whatever calls were made
    before. *)
Theorem fetch_mpp_pure ck (w : world) :
  snd (_fetch_mpp ck w) = w
  /\ _fetch_mpp ck (snd (_fetch_mpp ck w)) = _fetch_mpp ck w
  /\ forall history,
      fst (_fetch_mpp ck (mk_world (self w) history))
      = fst (_fetch_mpp ck w).
Proof.
  assert (Hframe : snd (_fetch_mpp ck w) = w)
    by (rewrite fetch_mpp_unfold; reflexivity).
  split; [exact Hframe|]. split.
  - rewrite Hframe. reflexivity.
  - intros history. rewrite !fetch_mpp_unfold. reflexivity.
Qed.

(** Reading an attribute back after assignments. *)
Ltac attrs :=
  cbn [self calls slide_path tissue_seg_path custom_mpp_keys lazy_init
       img dimensions width height level_count level_downsamples
       level_dimensions properties mpp mag gdf_contours
       set_lazy_init set_img set_dimensions set_width set_height
       set_level_count set_level_downsamples set_level_dimensions
       set_properties set_mpp set_mag set_gdf_contours].

Ltac attrs_in H :=
  cbn [self calls slide_path tissue_seg_path custom_mpp_keys lazy_init
       img dimensions width height level_count level_downsamples
       level_dimensions properties mpp mag gdf_contours
       set_lazy_init set_img set_dimensions set_width set_height
       set_level_count set_level_downsamples set_level_dimensions
       set_properties set_mpp set_mag set_gdf_contours] in H.

Ltac closes_outcome :=
  intros [= <- <-]; attrs; repeat split; discriminate.

(** *** [_lazy_initialize] *)

(** A failing import ends the call at once, whatever the adapter. *)
Lemma lazy_initialize_import_fails (w : world) e :
  cucim_import = Raise e -> _lazy_initialize w = (Raise e, w).
Proof.
  intros H. unfold _lazy_initialize, bind, lift. rewrite H. reflexivity.
Qed.

Lemma lazy_initialize_initialized (w : world) :
  cucim_import = Ok tt ->
  lazy_init (self w) = true -> _lazy_initialize w = (Ok tt, w).
Proof.
  intros Himport H. unfold _lazy_initialize, bind, lift, get_self.
  rewrite Himport, H. reflexivity.
Qed.

Lemma lazy_initialize_fresh (w : world) :
  cucim_import = Ok tt ->
  lazy_init (self w) = false ->
  _lazy_initialize w
  = try_except
      (bind open_and_read_metadata (fun _ => load_contours))
      is_Exception
      (fun e =>
         raise PlainException ("Error initializing WSI: " ++ exn_str e))
      w.
Proof.
  intros Himport H. unfold _lazy_initialize, bind at 1 2, lift, get_self.
  rewrite Himport, H. reflexivity.
Qed.

(** C8.  On an adapter whose [lazy_init] is true, [_lazy_initialize]
    returns without an error and leaves every attribute, and the call
    history, as they were.  The import at the head of the method is taken
    to succeed, as it did when the adapter was initialized. *)
Theorem lazy_initialize_noop_when_initialized (w : world) :
  cucim_import = Ok tt ->
  lazy_init (self w) = true ->
  _lazy_initialize w = (Ok tt, w).
Proof. exact (lazy_initialize_initialized w). Qed.

(** The first part of the initialization opens the slide and nothing
    else; it leaves the contour attributes alone, and when it succeeds
    the adapter is marked initialized. *)
Lemma open_and_read_metadata_outcome (w w1 : world) r :
  open_and_read_metadata w = (r, w1) ->
  calls w1 = EvOpen (slide_path (self w)) :: calls w
  /\ gdf_contours (self w1) = gdf_contours (self w)
  /\ tissue_seg_path (self w1) = tissue_seg_path (self w)
  /\ (forall u, r = Ok u -> lazy_init (self w1) = true).
Proof.
  unfold open_and_read_metadata, bind, get_self, extern, assign, lift,
    ret.
  attrs.
  destruct (CuImage_open (slide_path (self w))) as [h|e];
    cbv beta iota; [|closes_outcome].
  destruct (index "list" (cu_size h) 0) as [d0|e];
    cbv beta iota; [|closes_outcome].
  destruct (index "list" (cu_size h) 1) as [d1|e];
    cbv beta iota; [|closes_outcome].
  attrs.
  destruct (mpp (self w)) as [m|]; cbv beta iota.
  - attrs.
    match goal with
    | |- context [_fetch_magnification ?a ?k] =>
        destruct (_fetch_magnification a k) as [g|e]
    end; cbv beta iota; closes_outcome.
  - rewrite fetch_mpp_unfold. attrs.
    destruct (fetch_mpp_of (cu_metadata h) (custom_mpp_keys (self w)))
      as [m|e]; cbv beta iota; [|closes_outcome].
    attrs.
    match goal with
    | |- context [_fetch_magnification ?a ?k] =>
        destruct (_fetch_magnification a k) as [g|e]
    end; cbv beta iota; closes_outcome.
Qed.

(** C10.  Initialization is not atomic with respect to the contour
    load.  When a first [_lazy_initialize] raises and its last call was
    the read of the tissue segmentation file, the adapter is left with
    [lazy_init] true and [gdf_contours] as it was before the call; the
    next [_lazy_initialize] returns at once, and however many follow,
    the adapter and the call history stay the same: the contour file is
    not read again.  The import at the head of the method is taken to
    succeed. *)
Theorem lazy_initialize_not_atomic (w w' : world) e p :
  cucim_import = Ok tt ->
  lazy_init (self w) = false ->
  _lazy_initialize w = (Raise e, w') ->
  head (calls w') = Some (EvReadFile p) ->
  lazy_init (self w') = true
  /\ gdf_contours (self w') = gdf_contours (self w)
  /\ _lazy_initialize w' = (Ok tt, w')
  /\ forall n, Nat.iter n (fun w0 => snd (_lazy_initialize w0)) w' = w'.
Proof.
  intros Himport Hfresh Hrun Hlast.
  assert (Hdone : lazy_init (self w') = true
                  /\ gdf_contours (self w') = gdf_contours (self w)).
  { rewrite (lazy_initialize_fresh _ Himport Hfresh) in Hrun.
    unfold try_except, bind in Hrun.
    destruct (open_and_read_metadata w) as [r1 w1] eqn:E1.
    apply open_and_read_metadata_outcome in E1
      as (Hcalls & Hgdf & Hseg & Hinit).
    destruct r1 as [[]|e1].
    - specialize (Hinit tt eq_refl).
      unfold load_contours, bind, get_self, try_except, extern, assign,
        raise, ret in Hrun.
      destruct (tissue_seg_path (self w1)) as [p0|];
        [|discriminate Hrun].
      attrs_in Hrun.
      destruct (gpd_read_file p0) as [g|e0]; [discriminate Hrun|].
      destruct (is_FileNotFoundError (exn_cls e0)); cbn in Hrun.
      + injection Hrun as _ <-. attrs. auto.
      + destruct (is_Exception (exn_cls e0));
          injection Hrun as _ <-; attrs; auto.
    - assert (w' = w1) as ->.
      { destruct (is_Exception (exn_cls e1)); cbn in Hrun;
          injection Hrun as _ <-; reflexivity. }
      rewrite Hcalls in Hlast. discriminate Hlast. }
  destruct Hdone as [Hinit Hgdf].
  assert (Hnoop := lazy_initialize_initialized w' Himport Hinit).
  split; [exact Hinit|]. split; [exact Hgdf|]. split; [exact Hnoop|].
  induction n as [|n IH]; [reflexivity|].
  rewrite Nat.iter_succ, IH, Hnoop. reflexivity.
Qed.

(** Whatever [CuImage] raises on the slide path, the caller sees a
    plain [Exception]: the outer handler catches every [Exception]
    and raises a new one. *)
Lemma lazy_initialize_wraps_open_failure (w : world) e :
  cucim_import = Ok tt ->
  lazy_init (self w) = false ->
  CuImage_open (slide_path (self w)) = Raise e ->
  is_Exception (exn_cls e) = true ->
  _lazy_initialize w
  = (Raise (mk_exn PlainException
                   ("Error initializing WSI: " ++ exn_str e)),
     mk_world (self w) (EvOpen (slide_path (self w)) :: calls w)).
Proof.
  intros Himport Hfresh Hopen Hexn.
  rewrite (lazy_initialize_fresh _ Himport Hfresh).
  unfold try_except, bind, open_and_read_metadata, bind, get_self,
    extern.
  rewrite Hopen. cbv beta iota. rewrite Hexn. reflexivity.
Qed.

(** *** [read_region] *)

(** C1, as the code has it.  On an adapter whose handle is open,
    [read_region] with a [read_as] other than ['numpy'], ['torch'] and
    ['pil'] first decodes the region; when the decode succeeds it
    raises [ValueError], and when the decode fails the failure of the
    decode is what is raised.  The attributes of the adapter are
    unchanged. *)
Theorem read_region_rejects_format_after_decode
        (w : world) h location level size device read_as :
  img (self w) = Some h ->
  Spec.supported_format read_as = false ->
  read_region location level size device read_as w
  = (match cu_read_region h location level size device with
     | Ok _ =>
         Raise (mk_exn ValueError
                       ("Unsupported read_as value: " ++ read_as))
     | Raise e => Raise e
     end,
     mk_world (self w)
              (EvReadRegion location level size device :: calls w)).
Proof.
  intros Himg Hfmt. unfold Spec.supported_format in Hfmt.
  apply orb_false_iff in Hfmt as [Hfmt Hpil].
  apply orb_false_iff in Hfmt as [Hnumpy Htorch].
  unfold read_region, bind, get_self, attr_of, extern, ret.
  rewrite Himg. cbv beta iota.
  destruct (cu_read_region h location level size device);
    cbv beta iota; [|reflexivity].
  rewrite Htorch, Hnumpy, Hpil. reflexivity.
Qed.

(** [read_region] with ['pil'] returns the 3-channel image of what it
    returns with ['numpy'] on the same inputs, fails where that fails, and
    leaves the same adapter and call history. *)
Lemma read_region_pil_follows_numpy
      (w : world) location level size device :
  let numpy := read_region location level size device "numpy" w in
  read_region location level size device "pil" w
  = (match fst numpy with
     | Ok (AsNumpy a) => Spec.rgb_image_of_array a
     | Ok other => Ok other
     | Raise e => Raise e
     end, snd numpy)
  /\ match fst numpy with
     | Ok (AsNumpy _) | Raise _ => True
     | Ok _ => False
     end.
Proof.
  unfold read_region, bind, get_self, attr_of, extern, lift, ret, raise,
    Spec.rgb_image_of_array.
  destruct (img (self w)) as [h|]; cbn; [|split; [reflexivity|exact I]].
  destruct (cu_read_region h location level size device) as [a|e];
    cbn; [|split; [reflexivity|exact I]].
  destruct (cp_asnumpy a) as [n|e]; cbn; [|split; [reflexivity|exact I]].
  split; [|exact I].
  destruct (Image_fromarray n); reflexivity.
Qed.

(** Both formats on an open handle whose decode and host copy succeed. *)
Lemma read_region_numpy_and_pil_return
      (w : world) h location level size device a n :
  img (self w) = Some h ->
  cu_read_region h location level size device = Ok a ->
  cp_asnumpy a = Ok n ->
  read_region location level size device "numpy" w
  = (Ok (AsNumpy n),
     mk_world (self w)
              (EvReadRegion location level size device :: calls w))
  /\ forall im,
      Image_fromarray n = Ok im ->
      read_region location level size device "pil" w
      = (Ok (AsPIL (PIL.convert im "RGB")),
         mk_world (self w)
                  (EvReadRegion location level size device :: calls w)).
Proof.
  intros Himg Hdecode Hhost.
  unfold read_region, bind, get_self, attr_of, extern, lift, ret.
  rewrite Himg. cbv beta iota. rewrite Hdecode. cbn. rewrite Hhost.
  split; [reflexivity|].
  intros im Him. rewrite Him. reflexivity.
Qed.

(** C9.  On the same inputs, [read_region] with ['numpy'] and with ['pil']
    yield the same pixels up to the RGB conversion.  On an open handle
    whose decode and host copy succeed, ['numpy'] returns the host array,
    and ['pil'], when [Image.fromarray] accepts that array, returns the
    image of that very array converted to RGB, after one decode each with
    the adapter unchanged.  In every case, failures included, the ['pil']
    outcome is the 3-channel image of the ['numpy'] outcome, with the same
    adapter and call history. *)
Theorem read_region_pil_is_rgb_of_numpy
        (w : world) location level size device :
  let numpy := read_region location level size device "numpy" w in
  let pil := read_region location level size device "pil" w in
  (pil
   = (match fst numpy with
      | Ok (AsNumpy a) => Spec.rgb_image_of_array a
      | Ok other => Ok other
      | Raise e => Raise e
      end, snd numpy)
   /\ match fst numpy with
      | Ok (AsNumpy _) | Raise _ => True
      | Ok _ => False
      end)
  /\ forall h a n,
      img (self w) = Some h ->
      cu_read_region h location level size device = Ok a ->
      cp_asnumpy a = Ok n ->
      numpy
      = (Ok (AsNumpy n),
         mk_world (self w)
                  (EvReadRegion location level size device :: calls w))
      /\ forall im,
          Image_fromarray n = Ok im ->
          pil
          = (Ok (AsPIL (PIL.convert im "RGB")),
             mk_world (self w)
                      (EvReadRegion location level size device :: calls w)).
Proof.
  intros numpy pil. split.
  - exact (read_region_pil_follows_numpy w location level size device).
  - intros h a n Himg Hdecode Hhost.
    exact (read_region_numpy_and_pil_return
             w h location level size device a n Himg Hdecode Hhost).
Qed.

(** *** [get_thumbnail] *)

(** The image [get_thumbnail] returns has the two requested dimensions
    in the other order: width [size[1]], height [size[0]]. *)
Lemma get_thumbnail_size_is_swapped (w w' : world) size im :
  get_thumbnail size w = (Ok im, w') ->
  im_size im = (snd size, fst size).
Proof.
  unfold get_thumbnail. destruct size as [tw th].
  unfold bind, get_self, lift, PIL.resize. cbn [fst snd].
  repeat match goal with
         | |- context [match ?x with _ => _ end] => destruct x
         | |- context [if ?x then _ else _] => destruct x
         end;
    intros [= <- <-] || discriminate; reflexivity.
Qed.

End WithLibs.

(** *** The theorems at the instance of [Demo] *)

(** C4 at the initialized adapter of [Demo], whose metadata nests the
    two OpenSlide keys under ["openslide"]. *)
Lemma fetch_mpp_openslide_average_witness :
  _fetch_mpp (L := Demo.libs) None Demo.ready
  = (Ok (Some (Qred 0.255)), Demo.ready).
Proof.
  apply (fetch_mpp_openslide_average
           (L := Demo.libs) Demo.ready Demo.slide
           (Mpp.flatten_val Demo.metadata "" ∅)
           (PFloat (25 # 100)) (PFloat (26 # 100))
           (25 # 100)%Q (26 # 100)%Q);
    vm_compute; reflexivity.
Defined.

(** C8 at the initialized adapter of [Demo]. *)
Lemma lazy_initialize_noop_when_initialized_witness :
  _lazy_initialize (L := Demo.libs) (B := Demo.base) Demo.ready
  = (Ok tt, Demo.ready).
Proof.
  apply (lazy_initialize_noop_when_initialized
           (L := Demo.libs) (B := Demo.base) Demo.ready);
    vm_compute; reflexivity.
Defined.

(** C10 at a fresh adapter of [Demo] on the existing slide, with a
    contour path that does not exist. *)
Lemma lazy_initialize_not_atomic_witness :
  let w := Demo.fresh "slide.svs" (Some "nope.geojson") None in
  let w' := snd (_lazy_initialize (L := Demo.libs) (B := Demo.base) w) in
  lazy_init (self w') = true
  /\ gdf_contours (self w') = gdf_contours (self w)
  /\ _lazy_initialize (L := Demo.libs) (B := Demo.base) w' = (Ok tt, w')
  /\ forall n,
      Nat.iter n
        (fun w0 =>
           snd (_lazy_initialize (L := Demo.libs) (B := Demo.base) w0))
        w'
      = w'.
Proof.
  intros w w'.
  apply (lazy_initialize_not_atomic
           (L := Demo.libs) (B := Demo.base) w w'
           (mk_exn PlainException
                   ("Error initializing WSI: "
                    ++ "Tissue segmentation file not found: nope.geojson"))
           "nope.geojson");
    vm_compute; reflexivity.
Defined.

(** C1, amended, at the initialized adapter of [Demo] and the format
    ["jpeg"]. *)
Lemma read_region_rejects_format_after_decode_witness :
  read_region (L := Demo.libs) (0, 0) 0 (10, 20) "cpu" "jpeg" Demo.ready
  = (Raise (mk_exn ValueError "Unsupported read_as value: jpeg"),
     mk_world (self Demo.ready)
              (EvReadRegion (0, 0) 0 (10, 20) "cpu" :: calls Demo.ready)).
Proof.
  apply (read_region_rejects_format_after_decode
           (L := Demo.libs) Demo.ready Demo.slide
           (0, 0) 0 (10, 20) "cpu" "jpeg");
    vm_compute; reflexivity.
Defined.

(** C9 at the initialized adapter of [Demo]: a region of 10 by 20 at
    level 0 on the CPU, returned as an array and as an RGB image of that
    array. *)
Lemma read_region_pil_is_rgb_of_numpy_witness :
  read_region (L := Demo.libs) (0, 0) 0 (10, 20) "cpu" "numpy" Demo.ready
  = (Ok (AsNumpy (L := Demo.libs) [10; 20]%Z),
     mk_world (self Demo.ready)
              (EvReadRegion (0, 0) 0 (10, 20) "cpu" :: calls Demo.ready))
  /\ read_region (L := Demo.libs) (0, 0) 0 (10, 20) "cpu" "pil" Demo.ready
     = (Ok (AsPIL (L := Demo.libs)
                  (PIL.convert (L := Demo.libs)
                     (mk_Image (10, 20)%Z "RGBA" [10; 20]%Z) "RGB")),
        mk_world (self Demo.ready)
                 (EvReadRegion (0, 0) 0 (10, 20) "cpu" :: calls Demo.ready)).
Proof.
  destruct (proj2 (read_region_pil_is_rgb_of_numpy
                     (L := Demo.libs) Demo.ready (0, 0) 0 (10, 20) "cpu")
                  Demo.slide [10; 20]%Z [10; 20]%Z)
    as [Hnumpy Hpil]; [vm_compute; reflexivity..|].
  split; [exact Hnumpy|].
  apply Hpil. vm_compute; reflexivity.
Defined.

(** C1 as the specification states it fails: on the initialized adapter
    of [Demo], [read_region] with the format ["jpeg"] raises its
    [ValueError] only after the region was decoded, so the call history
    has grown by one decode. *)
Lemma rejects_format_without_decode_fails :
  ~ Spec.rejects_format_without_decode (L := Demo.libs).
Proof.
  intros H.
  destruct (H (0, 0) 0 (10, 20) "cpu" "jpeg" Demo.ready eq_refl)
    as [_ Hcalls].
  vm_compute in Hcalls. discriminate Hcalls.
Qed.

(** C2, the code at a slide path that does not exist: [CuImage] raises
    [FileNotFoundError], and [_lazy_initialize] raises a plain
    [Exception] in its place, with no attribute assigned. *)
Theorem lazy_initialize_missing_slide_raises_plain_exception :
  let w := Demo.fresh "missing.svs" None None in
  CuImage_open (ExternalLibs := Demo.libs) (slide_path (self w))
  = Raise (mk_exn FileNotFoundError "No such file: missing.svs")
  /\ _lazy_initialize (L := Demo.libs) (B := Demo.base) w
     = (Raise (mk_exn PlainException
                      "Error initializing WSI: No such file: missing.svs"),
        mk_world (self w) [EvOpen "missing.svs"]).
Proof.
  intros w. split; [reflexivity|].
  apply (lazy_initialize_wraps_open_failure
           (L := Demo.libs) (B := Demo.base) w
           (mk_exn FileNotFoundError "No such file: missing.svs"));
    reflexivity.
Qed.

(** C3, the code at the size (200, 100): on the initialized adapter of
    [Demo], [get_thumbnail] returns an image of width 100 and height
    200. *)
Theorem get_thumbnail_wide_request_returns_tall_image :
  exists im w',
    get_thumbnail (L := Demo.libs) (B := Demo.base) (200, 100) Demo.ready
    = (Ok im, w')
    /\ im_size im = (100, 200)
    /\ im_size im <> (200, 100).
Proof.
  destruct (get_thumbnail (L := Demo.libs) (B := Demo.base) (200, 100)
                          Demo.ready) as [r w'] eqn:E.
  destruct r as [im|e]; [|vm_compute in E; discriminate E].
  exists im, w'. split; [reflexivity|].
  rewrite (get_thumbnail_size_is_swapped _ _ _ _ E).
  split; [reflexivity|discriminate].
Qed.

End CuCIMWSIFacts.

(** ** More on the calibration lookup *)

Module MppMore.
Import Mpp.

Section WithParser.
Variable float_of_str : string -> option Q.

Abbreviation try_parse := (try_parse float_of_str).
Abbreviation fallback_step := (fallback_step float_of_str).
Abbreviation fallback_loop := (fallback_loop float_of_str).
Abbreviation custom_lookup := (custom_lookup float_of_str).
Abbreviation resolve := (resolve float_of_str).
Abbreviation parsed_values := (Priority.parsed_values float_of_str).

Abbreviation axes := Priority.axes.

Lemma parsed_values_cons (flat : gmap string pyval) key rest :
  parsed_values flat (key :: rest)
  = match flat !! key ≫= try_parse with
    | Some q => q :: parsed_values flat rest
    | None => parsed_values flat rest
    end.
Proof. reflexivity. Qed.

(** The loop fills the two variables from the values of the keys, in the
    order of the keys. *)
Lemma fallback_loop_fill (flat : gmap string pyval) keys :
  forall s,
    axes (fallback_loop flat keys s)
    = Priority.fill (mpp_x s) (mpp_y s) (parsed_values flat keys).
Proof.
  induction keys as [|key rest IH]; intros [x y log].
  - cbn [Mpp.fallback_loop Priority.axes mpp_x mpp_y].
    destruct x, y; reflexivity.
  - rewrite MppFacts.fallback_loop_cons, parsed_values_cons.
    destruct (flat !! key) as [v|] eqn:Hk.
    + destruct x as [a|].
      * destruct y as [b|].
        -- rewrite MppFacts.fallback_step_both by reflexivity.
           reflexivity.
        -- rewrite (MppFacts.fallback_step_y _ _ _ _ _ _ Hk).
           cbn [mbind option_bind].
           destruct (try_parse v) as [q|]; cbn [both_found mpp_x mpp_y].
           ++ reflexivity.
           ++ rewrite IH. reflexivity.
      * rewrite (MppFacts.fallback_step_x _ _ _ _ _ _ Hk).
        cbn [mbind option_bind].
        destruct (try_parse v) as [q|], y as [b|];
          cbn [both_found mpp_x mpp_y]; try reflexivity;
          rewrite IH; reflexivity.
    + rewrite (MppFacts.fallback_step_absent _ _ _ _ Hk).
      cbn [mbind option_bind].
      destruct (both_found (mk_scan x y log)) eqn:Hb.
      * destruct x, y; try discriminate. reflexivity.
      * apply IH.
Qed.

Lemma mirror_and_average_axes (s : scan) :
  mirror_and_average s = Priority.average_of (axes s).
Proof.
  unfold mirror_and_average, Priority.axes.
  destruct (mpp_x s), (mpp_y s); reflexivity.
Qed.

(** The outcome of the lookup, from the custom keys' two values and the
    values of the fallback keys. *)
Lemma resolve_fill (flat : gmap string pyval) ck :
  mirror_and_average (resolve flat ck)
  = Priority.average_of
      (Priority.fill (mpp_x (custom_lookup flat ck))
                     (mpp_y (custom_lookup flat ck))
                     (parsed_values flat fallback_keys)).
Proof.
  rewrite mirror_and_average_axes. unfold Mpp.resolve.
  rewrite fallback_loop_fill. reflexivity.
Qed.

Lemma custom_lookup_none (flat : gmap string pyval) :
  custom_lookup flat None = mk_scan None None [].
Proof. reflexivity. Qed.

Lemma parsed_values_nil_iff (flat : gmap string pyval) keys :
  parsed_values flat keys = []
  <-> Forall (fun k => flat !! k ≫= try_parse = None) keys.
Proof.
  induction keys as [|key rest IH].
  - split; [constructor|reflexivity].
  - rewrite parsed_values_cons. split.
    + destruct (flat !! key ≫= try_parse) eqn:E; [discriminate|].
      intros H. constructor; [exact E|apply IH, H].
    + intros H. inversion H as [|? ? Hk Hrest]; subst.
      rewrite Hk. apply IH, Hrest.
Qed.

(** The loop reads the metadata at its keys only. *)
Lemma fallback_loop_agree (m1 m2 : gmap string pyval) keys :
  Priority.agree_on keys m1 m2 ->
  forall s, fallback_loop m1 keys s = fallback_loop m2 keys s.
Proof.
  induction 1 as [|key rest Hk _ IH]; intros s; [reflexivity|].
  rewrite !MppFacts.fallback_loop_cons.
  assert (E : fallback_step m1 key s = fallback_step m2 key s)
    by (unfold Mpp.fallback_step; rewrite Hk; reflexivity).
  rewrite E, IH. reflexivity.
Qed.

Lemma custom_lookup_agree (m1 m2 : gmap string pyval) ck :
  Priority.agree_on (Spec.calibration_keys ck) m1 m2 ->
  custom_lookup m1 ck = custom_lookup m2 ck.
Proof.
  unfold Priority.agree_on, Spec.calibration_keys. intros H.
  apply Forall_app in H as [H _].
  destruct ck as [ck|]; [|reflexivity].
  apply Forall_app in H as [Hx Hy].
  unfold Mpp.custom_lookup, dict_get.
  destruct (bool_decide (ck ≠ ∅)); [|reflexivity].
  destruct (ck !! "mpp_x") as [nx|], (ck !! "mpp_y") as [ny|];
    cbn in Hx, Hy;
    try (inversion Hx as [|? ? Ex _]; subst; rewrite Ex);
    try (inversion Hy as [|? ? Ey _]; subst; rewrite Ey);
    reflexivity.
Qed.

End WithParser.
End MppMore.

(** ** Flattening *)

Module FlattenFacts.
Import Mpp.

Lemma lower_ascii_idem (c : ascii) : lower_ascii (lower_ascii c) = lower_ascii c.
Proof.
  destruct c as [[] [] [] [] [] [] [] []]; reflexivity.
Qed.

Lemma lower_idem (s : string) : lower (lower s) = lower s.
Proof.
  induction s as [|c r IH]; [reflexivity|].
  cbn [lower]. rewrite lower_ascii_idem, IH. reflexivity.
Qed.

(** Induction on a value through the items of its dicts. *)
Lemma pyval_dict_ind (P : pyval -> Prop) :
  (forall v, is_dict v = false -> P v) ->
  (forall items, Forall (fun kv => P (snd kv)) items -> P (PDict items)) ->
  forall v, P v.
Proof.
  intros Hleaf Hdict. fix IH 1.
  intros [ | | | | | |items]; try (apply Hleaf; reflexivity).
  apply Hdict. revert items. fix IHitems 1.
  intros [|[k v] rest]; constructor; [apply IH|apply IHitems].
Qed.

Lemma flatten_val_leaf v parent (flat : gmap string pyval) :
  is_dict v = false -> flatten_val v parent flat = flat.
Proof. destruct v; [reflexivity..|discriminate]. Qed.

Lemma flatten_val_nil parent (flat : gmap string pyval) :
  flatten_val (PDict []) parent flat = flat.
Proof. reflexivity. Qed.

(** One item of the dict: a nested dict is flattened under its key, any
    other value is stored under the lowercased key. *)
Lemma flatten_val_cons k v rest parent (flat : gmap string pyval) :
  flatten_val (PDict ((k, v) :: rest)) parent flat
  = flatten_val (PDict rest) parent
      (if is_dict v
       then flatten_val v (child_key parent k) flat
       else <[lower (child_key parent k) := v]> flat).
Proof. destruct v; reflexivity. Qed.

Lemma flatten_val_app a b parent (flat : gmap string pyval) :
  flatten_val (PDict (a ++ b)) parent flat
  = flatten_val (PDict b) parent (flatten_val (PDict a) parent flat).
Proof.
  revert flat. induction a as [|[k v] a IH]; intros flat; [reflexivity|].
  rewrite <- app_comm_cons, !flatten_val_cons. apply IH.
Qed.

Lemma flat_ok_insert key v (flat : gmap string pyval) :
  is_dict v = false -> flat_ok flat -> flat_ok (<[lower key := v]> flat).
Proof.
  intros Hv Hflat k v' Hk.
  destruct (decide (lower key = k)) as [<-|Hne].
  - rewrite lookup_insert_eq in Hk. injection Hk as <-.
    split; [apply lower_idem|exact Hv].
  - rewrite lookup_insert_ne in Hk by exact Hne. apply (Hflat k v' Hk).
Qed.

Lemma flatten_val_ok v :
  forall parent (flat : gmap string pyval),
    flat_ok flat -> flat_ok (flatten_val v parent flat).
Proof.
  induction v as [v Hleaf|items IH] using pyval_dict_ind;
    intros parent flat Hflat.
  - rewrite flatten_val_leaf by exact Hleaf. exact Hflat.
  - revert flat Hflat.
    induction IH as [|[k v] rest Hv _ IHrest]; intros flat Hflat.
    + exact Hflat.
    + rewrite flatten_val_cons. apply IHrest.
      destruct (is_dict v) eqn:Ed.
      * apply Hv, Hflat.
      * apply flat_ok_insert; [exact Ed|exact Hflat].
Qed.

End FlattenFacts.

(** ** More on the methods *)

Module CuCIMWSIMore.
Import CuCIMWSI.

(** *** Flattening of the metadata *)

(** X1.  In the flattened metadata every key is lowercase and no value is a
    dict: nested dicts are replaced by their dotted entries. *)
Theorem flatten_keys_lowercase_values_leaves metadata
        (flat : gmap string pyval) k v :
  Mpp.flatten metadata = Ok flat ->
  flat !! k = Some v ->
  lower k = k /\ is_dict v = false.
Proof.
  unfold Mpp.flatten. intros Hflat Hk.
  destruct metadata as [ | | | | | |items]; try discriminate Hflat.
  injection Hflat as <-.
  assert (Hempty : flat_ok (∅ : gmap string pyval)).
  { intros k' v' H. rewrite lookup_empty in H. discriminate H. }
  exact (FlattenFacts.flatten_val_ok (PDict items) "" ∅ Hempty k v Hk).
Qed.

Lemma child_key_top k : Mpp.child_key "" k = k.
Proof. reflexivity. Qed.

Lemma child_key_nested parent k :
  parent <> "" -> Mpp.child_key parent k = parent ++ "." ++ k.
Proof.
  intros H. unfold Mpp.child_key.
  destruct (String.eqb parent "") eqn:E; [|reflexivity].
  apply String.eqb_eq in E. contradiction.
Qed.

(** X2.  The last item of the metadata dict, when its value is not a dict,
    is found under its lowercased key, whatever the items before it hold:
    an earlier key that differs by case only is replaced. *)
Theorem flatten_last_item_wins items k v :
  is_dict v = false ->
  exists flat : gmap string pyval,
    Mpp.flatten (PDict (items ++ [(k, v)])) = Ok flat
    /\ flat !! lower k = Some v.
Proof.
  intros Hv. eexists. split; [reflexivity|].
  rewrite FlattenFacts.flatten_val_app, FlattenFacts.flatten_val_cons, Hv,
    FlattenFacts.flatten_val_nil.
  rewrite child_key_top. apply lookup_insert_eq.
Qed.

(** X3.  A value that is the last item of a dict that is itself the last
    item of the metadata, under a key that is not empty, is found under
    the two keys joined by a dot, lowercased. *)
Theorem flatten_nested_item_dotted_key items k1 inner k2 v :
  k1 <> "" ->
  is_dict v = false ->
  exists flat : gmap string pyval,
    Mpp.flatten (PDict (items ++ [(k1, PDict (inner ++ [(k2, v)]))]))
    = Ok flat
    /\ flat !! lower (k1 ++ "." ++ k2) = Some v.
Proof.
  intros Hk1 Hv. eexists. split; [reflexivity|].
  rewrite FlattenFacts.flatten_val_app, FlattenFacts.flatten_val_cons.
  cbn [is_dict]. rewrite FlattenFacts.flatten_val_nil.
  rewrite FlattenFacts.flatten_val_app, FlattenFacts.flatten_val_cons, Hv,
    FlattenFacts.flatten_val_nil.
  rewrite child_key_top, (child_key_nested _ _ Hk1).
  apply lookup_insert_eq.
Qed.

Section WithLibs.
Context {L : ExternalLibs}.

Abbreviation parsed_values := (Priority.parsed_values float_of_str).
Abbreviation custom_lookup := (Mpp.custom_lookup float_of_str).
Abbreviation try_parse := (Mpp.try_parse float_of_str).

Lemma fetch_mpp_fill ck (w : world) h flat :
  img (self w) = Some h ->
  flat_meta_of (cu_metadata h) = Ok flat ->
  _fetch_mpp ck w
  = (Ok (Priority.average_of
           (Priority.fill (Mpp.mpp_x (custom_lookup flat ck))
                          (Mpp.mpp_y (custom_lookup flat ck))
                          (parsed_values flat Mpp.fallback_keys))), w).
Proof.
  intros Hh Hf. rewrite (CuCIMWSIFacts.fetch_mpp_run _ _ _ _ Hh Hf).
  rewrite MppMore.resolve_fill. reflexivity.
Qed.

Lemma custom_keys_nonempty (ck : gmap string string) key name :
  ck !! key = Some name -> bool_decide (ck ≠ ∅) = true.
Proof.
  intros H. apply bool_decide_eq_true. intros ->.
  rewrite lookup_empty in H. discriminate H.
Qed.

Lemma custom_lookup_x (flat : gmap string pyval) ck name v :
  ck !! "mpp_x" = Some name -> flat !! lower name = Some v ->
  Mpp.mpp_x (custom_lookup flat (Some ck)) = try_parse v.
Proof.
  intros Hn Hv. unfold Mpp.custom_lookup.
  rewrite (custom_keys_nonempty _ _ _ Hn), Hn. cbn [Mpp.mpp_x].
  unfold Mpp.dict_get. rewrite Hv. reflexivity.
Qed.

Lemma custom_lookup_y (flat : gmap string pyval) ck name v :
  ck !! "mpp_y" = Some name -> flat !! lower name = Some v ->
  Mpp.mpp_y (custom_lookup flat (Some ck)) = try_parse v.
Proof.
  intros Hn Hv. unfold Mpp.custom_lookup.
  rewrite (custom_keys_nonempty _ _ _ Hn), Hn. cbn [Mpp.mpp_y].
  unfold Mpp.dict_get. rewrite Hv. reflexivity.
Qed.

Lemma custom_lookup_no_y (flat : gmap string pyval) ck :
  ck !! "mpp_y" = None ->
  Mpp.mpp_y (custom_lookup flat (Some ck)) = None.
Proof.
  intros Hn. unfold Mpp.custom_lookup.
  destruct (bool_decide (ck ≠ ∅)); [|reflexivity].
  rewrite Hn. reflexivity.
Qed.

(** *** [_fetch_mpp] *)

(** X4.  With no custom keys, [_fetch_mpp] returns the average of the
    first two values of the fallback list, taken in the order of the list
    among the keys that are present and parse, whichever axis their names
    say; the one value when there is only one; [None] when there is
    none. *)
Theorem fetch_mpp_first_two_fallback_values (w : world) h flat :
  img (self w) = Some h ->
  flat_meta_of (cu_metadata h) = Ok flat ->
  _fetch_mpp None w
  = (Ok match parsed_values flat Mpp.fallback_keys with
        | [] => None
        | [a] => Some (fdiv (fadd a a) 2)
        | a :: b :: _ => Some (fdiv (fadd a b) 2)
        end, w).
Proof.
  intros Hh Hf. rewrite (fetch_mpp_fill _ _ _ _ Hh Hf).
  rewrite MppMore.custom_lookup_none. cbn [Mpp.mpp_x Mpp.mpp_y].
  destruct (parsed_values flat Mpp.fallback_keys) as [|a [|b rest]];
    reflexivity.
Qed.

(** X5.  [_fetch_mpp] returns [None] exactly when the custom keys give no
    value to either axis and no fallback key is present with a value that
    parses. *)
Theorem fetch_mpp_none_iff (w : world) h flat ck :
  img (self w) = Some h ->
  flat_meta_of (cu_metadata h) = Ok flat ->
  _fetch_mpp ck w = (Ok None, w)
  <-> Mpp.mpp_x (custom_lookup flat ck) = None
      /\ Mpp.mpp_y (custom_lookup flat ck) = None
      /\ Forall (fun k => flat !! k ≫= try_parse = None) Mpp.fallback_keys.
Proof.
  intros Hh Hf. rewrite (fetch_mpp_fill _ _ _ _ Hh Hf).
  rewrite <- MppMore.parsed_values_nil_iff.
  destruct (Mpp.mpp_x (custom_lookup flat ck)) as [a|],
           (Mpp.mpp_y (custom_lookup flat ck)) as [b|],
           (parsed_values flat Mpp.fallback_keys) as [|c [|d rest]];
    cbn; split; try discriminate; try tauto;
    intros (? & ? & ?); discriminate.
Qed.

(** X6.  When the custom keys name, for both axes, keys that are present
    with values that parse, [_fetch_mpp] returns the average of those two
    values: the fallback keys have no part in the result. *)
Theorem fetch_mpp_custom_pair_wins (w : world) h flat ck nx ny vx vy a b :
  img (self w) = Some h ->
  flat_meta_of (cu_metadata h) = Ok flat ->
  ck !! "mpp_x" = Some nx -> flat !! lower nx = Some vx ->
  try_parse vx = Some a ->
  ck !! "mpp_y" = Some ny -> flat !! lower ny = Some vy ->
  try_parse vy = Some b ->
  _fetch_mpp (Some ck) w = (Ok (Some (fdiv (fadd a b) 2)), w).
Proof.
  intros Hh Hf Hnx Hvx Ha Hny Hvy Hb.
  rewrite (fetch_mpp_fill _ _ _ _ Hh Hf).
  rewrite (custom_lookup_x _ _ _ _ Hnx Hvx), Ha.
  rewrite (custom_lookup_y _ _ _ _ Hny Hvy), Hb.
  reflexivity.
Qed.

(** X7.  When the custom keys give a value to the x axis and name no key
    for the y axis, the y axis takes the first value of the fallback list
    that is present and parses, whichever axis its key names; with no such
    value the x value stands for both. *)
Theorem fetch_mpp_custom_x_then_first_fallback
        (w : world) h flat ck nx vx a :
  img (self w) = Some h ->
  flat_meta_of (cu_metadata h) = Ok flat ->
  ck !! "mpp_x" = Some nx -> flat !! lower nx = Some vx ->
  try_parse vx = Some a ->
  ck !! "mpp_y" = None ->
  _fetch_mpp (Some ck) w
  = (Ok (Some match parsed_values flat Mpp.fallback_keys with
              | b :: _ => fdiv (fadd a b) 2
              | [] => fdiv (fadd a a) 2
              end), w).
Proof.
  intros Hh Hf Hnx Hvx Ha Hny.
  rewrite (fetch_mpp_fill _ _ _ _ Hh Hf).
  rewrite (custom_lookup_x _ _ _ _ Hnx Hvx), Ha.
  rewrite (custom_lookup_no_y _ _ Hny).
  destruct (parsed_values flat Mpp.fallback_keys); reflexivity.
Qed.

(** X8.  [_fetch_mpp] reads the flattened metadata at the calibration keys
    only: two adapters whose flattened metadata agree on the keys the
    custom keys name and on the fallback keys get the same result. *)
Theorem fetch_mpp_reads_calibration_keys_only
        (w1 w2 : world) h1 h2 flat1 flat2 ck :
  img (self w1) = Some h1 ->
  flat_meta_of (cu_metadata h1) = Ok flat1 ->
  img (self w2) = Some h2 ->
  flat_meta_of (cu_metadata h2) = Ok flat2 ->
  Priority.agree_on (Spec.calibration_keys ck) flat1 flat2 ->
  fst (_fetch_mpp ck w1) = fst (_fetch_mpp ck w2).
Proof.
  intros Hh1 Hf1 Hh2 Hf2 Hagree.
  rewrite (CuCIMWSIFacts.fetch_mpp_run _ _ _ _ Hh1 Hf1),
    (CuCIMWSIFacts.fetch_mpp_run _ _ _ _ Hh2 Hf2).
  cbn [fst]. unfold Mpp.resolve.
  rewrite (MppMore.custom_lookup_agree _ _ _ _ Hagree).
  rewrite (MppMore.fallback_loop_agree _ flat1 flat2); [reflexivity|].
  unfold Priority.agree_on, Spec.calibration_keys in *.
  apply Forall_app in Hagree as [_ H]. exact H.
Qed.

End WithLibs.
End CuCIMWSIMore.

(** ** More on [_lazy_initialize] *)

Module InitFacts.
Import CuCIMWSI.

Section WithLibs.
Context {L : ExternalLibs} {B : WSIBase}.

Ltac attrs :=
  cbn [self calls slide_path tissue_seg_path custom_mpp_keys lazy_init
       img dimensions width height level_count level_downsamples
       level_dimensions properties mpp mag gdf_contours
       set_lazy_init set_img set_dimensions set_width set_height
       set_level_count set_level_downsamples set_level_dimensions
       set_properties set_mpp set_mag set_gdf_contours].

Ltac attrs_in H :=
  cbn [self calls slide_path tissue_seg_path custom_mpp_keys lazy_init
       img dimensions width height level_count level_downsamples
       level_dimensions properties mpp mag gdf_contours
       set_lazy_init set_img set_dimensions set_width set_height
       set_level_count set_level_downsamples set_level_dimensions
       set_properties set_mpp set_mag set_gdf_contours] in H.

(** What the outer handler raises for [e]. *)
Abbreviation wrapped e :=
  (if is_Exception (exn_cls e)
   then mk_exn PlainException ("Error initializing WSI: " ++ exn_str e)
   else e).

(** What a failure of the first part leaves. *)
Ltac first_part_fails :=
  intros [= <- <-]; attrs;
  repeat (split; [reflexivity|]);
  (split; [intros; congruence|]);
  reflexivity.

(** The first part of the initialization, in full: what it keeps, what a
    failure leaves, what a success assigns. *)
Lemma open_and_read_metadata_cases (w w1 : world) r :
  open_and_read_metadata w = (r, w1) ->
  calls w1 = EvOpen (slide_path (self w)) :: calls w
  /\ slide_path (self w1) = slide_path (self w)
  /\ tissue_seg_path (self w1) = tissue_seg_path (self w)
  /\ custom_mpp_keys (self w1) = custom_mpp_keys (self w)
  /\ gdf_contours (self w1) = gdf_contours (self w)
  /\ (forall m, mpp (self w) = Some m -> mpp (self w1) = Some m)
  /\ match r with
     | Raise _ => lazy_init (self w1) = lazy_init (self w)
     | Ok _ =>
         exists h d0 d1 g,
           CuImage_open (slide_path (self w)) = Ok h
           /\ index "list" (cu_size h) 0 = Ok d0
           /\ index "list" (cu_size h) 1 = Ok d1
           /\ lazy_init (self w1) = true
           /\ img (self w1) = Some h
           /\ dimensions (self w1) = Some (d0, d1)
           /\ width (self w1) = Some d0
           /\ height (self w1) = Some d1
           /\ level_count (self w1)
              = Some (res_level_count (cu_resolutions h))
           /\ level_downsamples (self w1)
              = Some (res_level_downsamples (cu_resolutions h))
           /\ level_dimensions (self w1)
              = Some (res_level_dimensions (cu_resolutions h))
           /\ properties (self w1) = Some (cu_metadata h)
           /\ mag (self w1) = Some g
           /\ (mpp (self w) = None ->
               fetch_mpp_of (cu_metadata h) (custom_mpp_keys (self w))
               = Ok (mpp (self w1)))
     end.
Proof.
  unfold open_and_read_metadata, bind, get_self, extern, assign, lift, ret.
  attrs.
  destruct (CuImage_open (slide_path (self w))) as [h|e] eqn:Eopen;
    cbv beta iota; [|first_part_fails].
  destruct (index "list" (cu_size h) 0) as [d0|e] eqn:E0;
    cbv beta iota; [|first_part_fails].
  destruct (index "list" (cu_size h) 1) as [d1|e] eqn:E1;
    cbv beta iota; [|first_part_fails].
  attrs.
  destruct (mpp (self w)) as [m|] eqn:Empp; cbv beta iota.
  - attrs.
    match goal with
    | |- context [_fetch_magnification ?a ?k] =>
        destruct (_fetch_magnification a k) as [g|e]
    end; cbv beta iota.
    + intros [= <- <-]; attrs.
      repeat (split; [reflexivity|]).
      split; [intros; congruence|].
      exists h, d0, d1, g.
      repeat (split; [first [reflexivity|assumption]|]).
      intros; congruence.
    + intros [= <- <-]; attrs.
      repeat (split; [reflexivity|]).
      split; [intros; congruence|]. reflexivity.
  - rewrite CuCIMWSIFacts.fetch_mpp_unfold. attrs.
    destruct (fetch_mpp_of (cu_metadata h) (custom_mpp_keys (self w)))
      as [m|e] eqn:Efetch; cbv beta iota.
    + attrs.
      match goal with
      | |- context [_fetch_magnification ?a ?k] =>
          destruct (_fetch_magnification a k) as [g|e]
      end; cbv beta iota.
      * intros [= <- <-]; attrs.
        repeat (split; [reflexivity|]).
        split; [intros; congruence|].
        exists h, d0, d1, g.
      repeat (split; [first [reflexivity|assumption]|]).
        intros _. first [reflexivity|assumption].
      * intros [= <- <-]; attrs.
        repeat (split; [reflexivity|]).
        split; [intros; congruence|]. reflexivity.
    + intros [= <- <-]; attrs.
      repeat (split; [reflexivity|]).
      split; [intros; congruence|]. reflexivity.
Qed.

(** The contour load, in full. *)
Lemma load_contours_cases (w1 w' : world) r :
  load_contours w1 = (r, w') ->
  match tissue_seg_path (self w1) with
  | None => r = Ok tt /\ w' = w1
  | Some p =>
      calls w' = EvReadFile p :: calls w1
      /\ match gpd_read_file p with
         | Ok g =>
             r = Ok tt /\ self w' = set_gdf_contours (Some g) (self w1)
         | Raise e0 =>
             self w' = self w1
             /\ r = Raise
                      (if is_FileNotFoundError (exn_cls e0)
                       then mk_exn FileNotFoundError
                              ("Tissue segmentation file not found: " ++ p)
                       else e0)
         end
  end.
Proof.
  unfold load_contours, bind, get_self, try_except, extern, assign, raise,
    ret.
  destruct (tissue_seg_path (self w1)) as [p|];
    [|intros [= <- <-]; split; reflexivity].
  attrs.
  destruct (gpd_read_file p) as [g|e0]; cbv beta iota.
  - intros [= <- <-]. attrs. repeat split; reflexivity.
  - attrs. destruct (is_FileNotFoundError (exn_cls e0));
      intros [= <- <-]; attrs; destruct w1; repeat split; reflexivity.
Qed.

(** A call on an adapter not yet initialized: the first part, then the
    contour load, with the outer handler over both. *)
Lemma lazy_initialize_fresh_cases (w w' : world) r :
  cucim_import = Ok tt ->
  lazy_init (self w) = false ->
  _lazy_initialize w = (r, w') ->
  exists r1 w1,
    open_and_read_metadata w = (r1, w1)
    /\ match r1 with
       | Raise e1 => w' = w1 /\ r = Raise (wrapped e1)
       | Ok _ =>
           exists r2,
             load_contours w1 = (r2, w')
             /\ r = match r2 with
                    | Ok _ => Ok tt
                    | Raise e2 => Raise (wrapped e2)
                    end
       end.
Proof.
  intros Himport Hfresh.
  rewrite (CuCIMWSIFacts.lazy_initialize_fresh _ Himport Hfresh).
  unfold try_except, bind.
  destruct (open_and_read_metadata w) as [r1 w1].
  intros H. exists r1, w1. split; [reflexivity|].
  destruct r1 as [[]|e1].
  - destruct (load_contours w1) as [r2 w2].
    exists r2. destruct r2 as [[]|e2].
    + injection H as <- <-. split; reflexivity.
    + unfold raise in H. destruct (is_Exception (exn_cls e2));
        injection H as <- <-; split; reflexivity.
  - unfold raise in H. destruct (is_Exception (exn_cls e1));
      injection H as <- <-; split; reflexivity.
Qed.

(** A call that returns has imported [cucim]. *)
Lemma lazy_initialize_ok_imports (w w' : world) u :
  _lazy_initialize w = (Ok u, w') -> cucim_import = Ok tt.
Proof.
  intros Hrun. destruct cucim_import as [[]|e0] eqn:E; [reflexivity|].
  rewrite (CuCIMWSIFacts.lazy_initialize_import_fails _ _ E) in Hrun.
  discriminate Hrun.
Qed.

End WithLibs.
End InitFacts.

Module LazyInit.
Import CuCIMWSI.

Section WithLibs.
Context {L : ExternalLibs} {B : WSIBase}.

Ltac attrs :=
  cbn [self calls slide_path tissue_seg_path custom_mpp_keys lazy_init
       img dimensions width height level_count level_downsamples
       level_dimensions properties mpp mag gdf_contours
       set_lazy_init set_img set_dimensions set_width set_height
       set_level_count set_level_downsamples set_level_dimensions
       set_properties set_mpp set_mag set_gdf_contours].

(** A successful call on an adapter not yet initialized: the first part
    succeeded, and the contour load was skipped or succeeded. *)
Lemma lazy_initialize_ok_cases (w w' : world) :
  lazy_init (self w) = false ->
  _lazy_initialize w = (Ok tt, w') ->
  exists w1,
    open_and_read_metadata w = (Ok tt, w1)
    /\ ((tissue_seg_path (self w) = None /\ w' = w1)
        \/ exists p g,
            tissue_seg_path (self w) = Some p
            /\ gpd_read_file p = Ok g
            /\ self w' = set_gdf_contours (Some g) (self w1)
            /\ calls w' = EvReadFile p :: calls w1).
Proof.
  intros Hfresh Hrun.
  assert (Himport := InitFacts.lazy_initialize_ok_imports _ _ _ Hrun).
  destruct (InitFacts.lazy_initialize_fresh_cases _ _ _ Himport Hfresh Hrun)
    as (r1 & w1 & H1 & Hrest).
  destruct r1 as [[]|e1];
    [|destruct Hrest as [_ Hr];
      destruct (is_Exception (exn_cls e1)); discriminate Hr].
  destruct Hrest as (r2 & H2 & Hr).
  destruct r2 as [[]|e2];
    [|destruct (is_Exception (exn_cls e2)); discriminate Hr].
  exists w1. split; [exact H1|].
  destruct (InitFacts.open_and_read_metadata_cases _ _ _ H1)
    as (_ & _ & Hseg & _).
  apply InitFacts.load_contours_cases in H2. rewrite Hseg in H2.
  destruct (tissue_seg_path (self w)) as [p|].
  - right. destruct H2 as [Hcalls Hread].
    destruct (gpd_read_file p) as [g|e0] eqn:Eread.
    + exists p, g. destruct Hread as [_ Hself].
      repeat split; first [reflexivity|assumption].
    + destruct Hread as [_ Hr2]. discriminate Hr2.
  - left. destruct H2 as [_ ->]. split; reflexivity.
Qed.

(** X9.  After a successful [_lazy_initialize] on an adapter not yet
    initialized, the handle is the one [CuImage] opened on [slide_path];
    [dimensions] is the pair of the first two entries of its [size()],
    [width] and [height] are its two components, and [get_dimensions]
    returns that pair; the level attributes and [properties] are those of
    the handle; [lazy_init] is true. *)
Theorem lazy_initialize_success_attributes (w w' : world) :
  lazy_init (self w) = false ->
  _lazy_initialize w = (Ok tt, w') ->
  exists h d0 d1,
    CuImage_open (slide_path (self w)) = Ok h
    /\ index "list" (cu_size h) 0 = Ok d0
    /\ index "list" (cu_size h) 1 = Ok d1
    /\ img (self w') = Some h
    /\ dimensions (self w') = Some (d0, d1)
    /\ width (self w') = Some d0
    /\ height (self w') = Some d1
    /\ get_dimensions w' = (Ok (Some (d0, d1)), w')
    /\ level_count (self w') = Some (res_level_count (cu_resolutions h))
    /\ level_downsamples (self w')
       = Some (res_level_downsamples (cu_resolutions h))
    /\ level_dimensions (self w')
       = Some (res_level_dimensions (cu_resolutions h))
    /\ properties (self w') = Some (cu_metadata h)
    /\ lazy_init (self w') = true.
Proof.
  intros Hfresh Hrun.
  destruct (lazy_initialize_ok_cases _ _ Hfresh Hrun) as (w1 & H1 & Hw').
  destruct (InitFacts.open_and_read_metadata_cases _ _ _ H1)
    as (_ & _ & _ & _ & _ & _ & h & d0 & d1 & g & Hopen & E0 & E1 & Hinit
        & Himg & Hdim & Hwd & Hht & Hlc & Hld & Hldim & Hprop & _).
  exists h, d0, d1.
  assert (Hsame :
            img (self w') = img (self w1)
            /\ dimensions (self w') = dimensions (self w1)
            /\ width (self w') = width (self w1)
            /\ height (self w') = height (self w1)
            /\ level_count (self w') = level_count (self w1)
            /\ level_downsamples (self w') = level_downsamples (self w1)
            /\ level_dimensions (self w') = level_dimensions (self w1)
            /\ properties (self w') = properties (self w1)
            /\ lazy_init (self w') = lazy_init (self w1)).
  { destruct Hw' as [[_ ->]|(p & g' & _ & _ & -> & _)];
      attrs; repeat split; reflexivity. }
  destruct Hsame as (S1 & S2 & S3 & S4 & S5 & S6 & S7 & S8 & S9).
  unfold get_dimensions, bind, get_self, ret.
  rewrite S1, S2, S3, S4, S5, S6, S7, S8, S9.
  rewrite Himg, Hdim, Hwd, Hht, Hlc, Hld, Hldim, Hprop, Hinit.
  repeat split; assumption.
Qed.

(** X10.  A calibration given to the adapter is kept: when [mpp] holds a
    value before [_lazy_initialize], it holds the same value after it,
    whatever the outcome.  When [mpp] is [None] and the call succeeds on
    an adapter not yet initialized, [mpp] is what the lookup of
    [_fetch_mpp] gives on the metadata of the opened slide with the
    adapter's custom keys. *)
Theorem lazy_initialize_mpp (w w' : world) r :
  _lazy_initialize w = (r, w') ->
  (forall m, mpp (self w) = Some m -> mpp (self w') = Some m)
  /\ (lazy_init (self w) = false -> mpp (self w) = None -> r = Ok tt ->
      exists h,
        CuImage_open (slide_path (self w)) = Ok h
        /\ fetch_mpp_of (cu_metadata h) (custom_mpp_keys (self w))
           = Ok (mpp (self w'))).
Proof.
  intros Hrun.
  destruct cucim_import as [[]|e0] eqn:Himport;
    [|rewrite (CuCIMWSIFacts.lazy_initialize_import_fails _ _ Himport)
        in Hrun;
      injection Hrun as <- <-; split; [intros m E; exact E|discriminate]].
  destruct (lazy_init (self w)) eqn:Hinit.
  - rewrite (CuCIMWSIFacts.lazy_initialize_initialized _ Himport Hinit)
      in Hrun.
    injection Hrun as <- <-. split; [intros m E; exact E|discriminate].
  - destruct (InitFacts.lazy_initialize_fresh_cases _ _ _ Himport Hinit Hrun)
      as (r1 & w1 & H1 & Hrest).
    destruct (InitFacts.open_and_read_metadata_cases _ _ _ H1)
      as (_ & _ & Hseg & _ & _ & Hkeep & Hok).
    assert (Hmpp : mpp (self w') = mpp (self w1)).
    { destruct r1 as [[]|e1].
      - destruct Hrest as (r2 & H2 & _).
        apply InitFacts.load_contours_cases in H2.
        destruct (tissue_seg_path (self w1)) as [p|].
        + destruct H2 as [_ H2].
          destruct (gpd_read_file p); destruct H2 as [H2 H2'];
            first [rewrite H2|rewrite H2']; reflexivity.
        + destruct H2 as [_ ->]. reflexivity.
      - destruct Hrest as [-> _]. reflexivity. }
    split.
    + intros m E. rewrite Hmpp. apply Hkeep, E.
    + intros _ Hnone ->.
      destruct r1 as [[]|e1].
      * destruct Hok as (h & d0 & d1 & g & Hopen & _ & _ & _ & _ & _ & _
                         & _ & _ & _ & _ & _ & _ & Hfetch).
        exists h. split; [exact Hopen|]. rewrite Hmpp. apply Hfetch, Hnone.
      * destruct Hrest as [_ Hr].
        destruct (is_Exception (exn_cls e1)); discriminate Hr.
Qed.

(** X11.  A failure of [_lazy_initialize] that derives from [Exception]
    is one of two: the error of the import of [cucim] at the head of the
    method, which reaches the caller as it is and leaves the adapter and
    the call history untouched; or, once the import has succeeded, a plain
    [Exception] whose text starts with ["Error initializing WSI: "], never
    a [FileNotFoundError], a [ValueError] or any other class. *)
Theorem lazy_initialize_raises_import_error_or_plain_exception
        (w w' : world) e :
  _lazy_initialize w = (Raise e, w') ->
  is_Exception (exn_cls e) = true ->
  (cucim_import = Raise e /\ w' = w)
  \/ (cucim_import = Ok tt
      /\ exn_cls e = PlainException
      /\ exists text, exn_str e = "Error initializing WSI: " ++ text).
Proof.
  intros Hrun Hexn.
  destruct cucim_import as [[]|e0] eqn:Himport;
    [right; split; [reflexivity|]
    |rewrite (CuCIMWSIFacts.lazy_initialize_import_fails _ _ Himport)
       in Hrun;
     injection Hrun as <- <-; left; split; reflexivity].
  destruct (lazy_init (self w)) eqn:Hinit.
  - rewrite (CuCIMWSIFacts.lazy_initialize_initialized _ Himport Hinit)
      in Hrun.
    discriminate Hrun.
  - destruct (InitFacts.lazy_initialize_fresh_cases _ _ _ Himport Hinit Hrun)
      as (r1 & w1 & _ & Hrest).
    assert (Hw : exists e0, e = (if is_Exception (exn_cls e0)
                                 then mk_exn PlainException
                                        ("Error initializing WSI: "
                                         ++ exn_str e0)
                                 else e0)).
    { destruct r1 as [[]|e1].
      - destruct Hrest as (r2 & _ & Hr). destruct r2 as [[]|e2];
          [discriminate Hr|]. injection Hr as ->. exists e2. reflexivity.
      - destruct Hrest as [_ Hr]. injection Hr as ->.
        exists e1. reflexivity. }
    destruct Hw as [e0 ->].
    destruct (is_Exception (exn_cls e0)) eqn:E0.
    + split; [reflexivity|]. exists (exn_str e0). reflexivity.
    + rewrite E0 in Hexn. discriminate Hexn.
Qed.

(** X12.  A failure before the contour load leaves the adapter not
    initialized: when [_lazy_initialize] raises and its last call was the
    opening of the slide, [lazy_init] is still false and [gdf_contours] is
    as before, and the next [_lazy_initialize] opens the slide again.  The
    import at the head of the method is taken to succeed. *)
Theorem lazy_initialize_early_failure_retries (w w' : world) e path :
  cucim_import = Ok tt ->
  lazy_init (self w) = false ->
  _lazy_initialize w = (Raise e, w') ->
  head (calls w') = Some (EvOpen path) ->
  lazy_init (self w') = false
  /\ gdf_contours (self w') = gdf_contours (self w)
  /\ exists later,
      calls (snd (_lazy_initialize w'))
      = (later ++ EvOpen (slide_path (self w)) :: calls w')%list.
Proof.
  intros Himport Hfresh Hrun Hlast.
  destruct (InitFacts.lazy_initialize_fresh_cases _ _ _ Himport Hfresh Hrun)
    as (r1 & w1 & H1 & Hrest).
  destruct (InitFacts.open_and_read_metadata_cases _ _ _ H1)
    as (Hcalls & Hpath & Hseg & _ & Hgdf & _ & Hok).
  destruct r1 as [[]|e1].
  - destruct Hrest as (r2 & H2 & Hr).
    apply InitFacts.load_contours_cases in H2.
    destruct (tissue_seg_path (self w1)) as [p|].
    + destruct H2 as [Hc _]. rewrite Hc in Hlast. discriminate Hlast.
    + destruct H2 as [-> _]. discriminate Hr.
  - destruct Hrest as [-> _].
    assert (Hstill : lazy_init (self w1) = false) by congruence.
    split; [exact Hstill|]. split; [exact Hgdf|].
    destruct (_lazy_initialize w1) as [r' w''] eqn:Hnext.
    destruct (InitFacts.lazy_initialize_fresh_cases _ _ _ Himport Hstill Hnext)
      as (r3 & w3 & H3 & Hrest3).
    destruct (InitFacts.open_and_read_metadata_cases _ _ _ H3)
      as (Hcalls3 & _).
    rewrite Hpath in Hcalls3. cbn [snd].
    destruct r3 as [[]|e3].
    + destruct Hrest3 as (r4 & H4 & _).
      apply InitFacts.load_contours_cases in H4.
      destruct (tissue_seg_path (self w3)) as [p|].
      * destruct H4 as [Hc _]. exists [EvReadFile p].
        rewrite Hc, Hcalls3. reflexivity.
      * destruct H4 as [_ ->]. exists []. exact Hcalls3.
    + destruct Hrest3 as [-> _]. exists []. exact Hcalls3.
Qed.

(** What the contour load leaves of the attributes set before it. *)
Lemma load_contours_keeps (w1 w' : world) r :
  load_contours w1 = (r, w') ->
  slide_path (self w') = slide_path (self w1)
  /\ tissue_seg_path (self w') = tissue_seg_path (self w1)
  /\ custom_mpp_keys (self w') = custom_mpp_keys (self w1)
  /\ lazy_init (self w') = lazy_init (self w1)
  /\ (calls w' = calls w1
      \/ exists p, tissue_seg_path (self w1) = Some p
                   /\ calls w' = EvReadFile p :: calls w1).
Proof.
  intros H. apply InitFacts.load_contours_cases in H.
  destruct (tissue_seg_path (self w1)) as [p|] eqn:Eseg.
  - destruct H as [Hc H].
    assert (Hself : self w' = self w1
                    \/ exists g, self w' = set_gdf_contours (Some g)
                                                           (self w1)).
    { destruct (gpd_read_file p) as [g|e0]; destruct H as [H H'];
        [right; exists g; exact H'|left; exact H]. }
    destruct Hself as [->|[g ->]]; attrs;
      repeat (split; [first [reflexivity|assumption]|]);
      right; exists p; split; first [reflexivity|assumption].
  - destruct H as [_ ->].
    repeat (split; [first [reflexivity|assumption]|]).
    left. reflexivity.
Qed.

(** X13.  [_lazy_initialize] never decodes a region and never changes
    [slide_path], [tissue_seg_path] or [custom_mpp_keys].  Whatever its
    outcome it makes no call at all, or opens the slide once, or opens the
    slide once and then reads the contour file the adapter names once. *)
Theorem lazy_initialize_calls (w : world) :
  let w' := snd (_lazy_initialize w) in
  slide_path (self w') = slide_path (self w)
  /\ tissue_seg_path (self w') = tissue_seg_path (self w)
  /\ custom_mpp_keys (self w') = custom_mpp_keys (self w)
  /\ (calls w' = calls w
      \/ calls w' = EvOpen (slide_path (self w)) :: calls w
      \/ exists p,
          tissue_seg_path (self w) = Some p
          /\ calls w'
             = EvReadFile p :: EvOpen (slide_path (self w)) :: calls w).
Proof.
  destruct (_lazy_initialize w) as [r w'] eqn:Hrun. cbn [snd].
  destruct cucim_import as [[]|e0] eqn:Himport;
    [|rewrite (CuCIMWSIFacts.lazy_initialize_import_fails _ _ Himport)
        in Hrun;
      injection Hrun as <- <-; repeat (split; [reflexivity|]);
      left; reflexivity].
  destruct (lazy_init (self w)) eqn:Hinit.
  - rewrite (CuCIMWSIFacts.lazy_initialize_initialized _ Himport Hinit)
      in Hrun.
    injection Hrun as <- <-. repeat (split; [reflexivity|]).
    left. reflexivity.
  - destruct (InitFacts.lazy_initialize_fresh_cases _ _ _ Himport Hinit Hrun)
      as (r1 & w1 & H1 & Hrest).
    destruct (InitFacts.open_and_read_metadata_cases _ _ _ H1)
      as (Hcalls & Hpath & Hseg & Hkeys & _).
    destruct r1 as [[]|e1].
    + destruct Hrest as (r2 & H2 & _).
      destruct (load_contours_keeps _ _ _ H2)
        as (Kpath & Kseg & Kkeys & _ & Kcalls).
      rewrite Kpath, Kseg, Kkeys, Hpath, Hseg, Hkeys.
      repeat (split; [reflexivity|]).
      destruct Kcalls as [->|(p & Hp & ->)].
      * right. left. exact Hcalls.
      * right. right. exists p. rewrite <- Hseg, Hcalls.
        split; [exact Hp|reflexivity].
    + destruct Hrest as [-> _].
      rewrite Hpath, Hseg, Hkeys. repeat (split; [reflexivity|]).
      right. left. exact Hcalls.
Qed.

(** X14.  After a successful [_lazy_initialize] on an adapter not yet
    initialized: with no [tissue_seg_path] the contour file is not read
    and [gdf_contours] is as before; with a [tissue_seg_path], the file was
    read once, after the slide was opened, and [gdf_contours] is what
    [gpd.read_file] returned for that path. *)
Theorem lazy_initialize_contours_loaded (w w' : world) :
  lazy_init (self w) = false ->
  _lazy_initialize w = (Ok tt, w') ->
  match tissue_seg_path (self w) with
  | None =>
      gdf_contours (self w') = gdf_contours (self w)
      /\ calls w' = EvOpen (slide_path (self w)) :: calls w
  | Some p =>
      exists g,
        gpd_read_file p = Ok g
        /\ gdf_contours (self w') = Some g
        /\ calls w'
           = EvReadFile p :: EvOpen (slide_path (self w)) :: calls w
  end.
Proof.
  intros Hfresh Hrun.
  destruct (lazy_initialize_ok_cases _ _ Hfresh Hrun) as (w1 & H1 & Hw').
  destruct (InitFacts.open_and_read_metadata_cases _ _ _ H1)
    as (Hcalls & _ & _ & _ & Hgdf & _).
  destruct Hw' as [[Hnone ->]|(p & g & Hp & Hread & Hself & Hc)].
  - rewrite Hnone. split; assumption.
  - rewrite Hp. exists g. split; [exact Hread|].
    rewrite Hself, Hc, Hcalls. attrs. split; reflexivity.
Qed.

(** X15.  When the read of the contour file fails with an error that
    derives from [Exception], the caller gets a plain [Exception]; its
    text is ["Error initializing WSI: "] followed, for a
    [FileNotFoundError], by ["Tissue segmentation file not found: "] and
    the path, and for any other error by the text of that error.  The
    import at the head of the method is taken to succeed. *)
Theorem lazy_initialize_contour_failure_text (w w' : world) e p e0 :
  cucim_import = Ok tt ->
  lazy_init (self w) = false ->
  _lazy_initialize w = (Raise e, w') ->
  head (calls w') = Some (EvReadFile p) ->
  gpd_read_file p = Raise e0 ->
  is_Exception (exn_cls e0) = true ->
  e = mk_exn PlainException
        ("Error initializing WSI: "
         ++ (if is_FileNotFoundError (exn_cls e0)
             then "Tissue segmentation file not found: " ++ p
             else exn_str e0)).
Proof.
  intros Himport Hfresh Hrun Hlast Hread Hexn.
  destruct (InitFacts.lazy_initialize_fresh_cases _ _ _ Himport Hfresh Hrun)
    as (r1 & w1 & H1 & Hrest).
  destruct (InitFacts.open_and_read_metadata_cases _ _ _ H1)
    as (Hcalls & _).
  destruct r1 as [[]|e1].
  - destruct Hrest as (r2 & H2 & Hr).
    apply InitFacts.load_contours_cases in H2.
    destruct (tissue_seg_path (self w1)) as [p'|].
    + destruct H2 as [Hc H2]. rewrite Hc in Hlast.
      injection Hlast as ->. rewrite Hread in H2.
      destruct H2 as [_ ->]. injection Hr as ->.
      destruct (is_FileNotFoundError (exn_cls e0)); cbn [exn_cls exn_str].
      * reflexivity.
      * rewrite Hexn. reflexivity.
    + destruct H2 as [-> _]. discriminate Hr.
  - destruct Hrest as [-> _]. rewrite Hcalls in Hlast.
    discriminate Hlast.
Qed.

End WithLibs.
End LazyInit.

(** ** More on [read_region] and [get_thumbnail] *)

Module RegionFacts.
Import CuCIMWSI.

Section WithLibs.
Context {L : ExternalLibs} {B : WSIBase}.

(** [read_region] with the format ['pil'], step by step. *)
Lemma read_region_pil (w : world) location level size device :
  read_region location level size device "pil" w
  = match img (self w) with
    | None =>
        (Raise (mk_exn AttributeError
                  "'NoneType' object has no attribute 'read_region'"), w)
    | Some h =>
        (match cu_read_region h location level size device with
         | Raise e => Raise e
         | Ok a =>
             match cp_asnumpy a with
             | Raise e => Raise e
             | Ok n =>
                 match Image_fromarray n with
                 | Raise e => Raise e
                 | Ok im => Ok (AsPIL (PIL.convert im "RGB"))
                 end
             end
         end,
         mk_world (self w)
                  (EvReadRegion location level size device :: calls w))
    end.
Proof.
  unfold read_region, bind, get_self, attr_of, extern, lift, ret, raise.
  destruct (img (self w)) as [h|]; [|reflexivity]. cbv beta iota.
  destruct (cu_read_region h location level size device) as [a|e];
    [|reflexivity]. cbn.
  destruct (cp_asnumpy a) as [n|e]; [|reflexivity].
  destruct (Image_fromarray n); reflexivity.
Qed.

(** X16.  [read_region] changes no attribute of the adapter.  With an open
    handle it decodes the requested region exactly once, whatever
    [read_as] says; without a handle it raises [AttributeError] and makes
    no call: it does not initialize the adapter. *)
Theorem read_region_frame (w : world) location level size device read_as :
  let out := read_region location level size device read_as w in
  self (snd out) = self w
  /\ match img (self w) with
     | Some _ =>
         calls (snd out)
         = EvReadRegion location level size device :: calls w
     | None =>
         calls (snd out) = calls w
         /\ fst out
            = Raise (mk_exn AttributeError
                       "'NoneType' object has no attribute 'read_region'")
     end.
Proof.
  unfold read_region, bind, get_self, attr_of, extern, lift, ret, raise.
  destruct (img (self w)) as [h|];
    [|cbn; repeat split; reflexivity].
  cbv beta iota.
  destruct (cu_read_region h location level size device) as [a|e];
    [|cbn; split; reflexivity].
  cbv beta iota.
  destruct (String.eqb read_as "torch").
  - destruct (contains "cuda" device).
    + destruct (torch_as_tensor a device); cbn; split; reflexivity.
    + destruct (cp_asnumpy a) as [n|e]; [|cbn; split; reflexivity].
      destruct (torch_from_numpy n); cbn; split; reflexivity.
  - destruct (String.eqb read_as "numpy").
    + destruct (cp_asnumpy a); cbn; split; reflexivity.
    + destruct (String.eqb read_as "pil"); [|cbn; split; reflexivity].
      destruct (cp_asnumpy a) as [n|e]; [|cbn; split; reflexivity].
      destruct (Image_fromarray n); cbn; split; reflexivity.
Qed.

(** X17.  On a device whose name does not contain ['cuda'], [read_region]
    with ['torch'] returns [torch.from_numpy] of what it returns with
    ['numpy'] on the same inputs, fails where that fails, and leaves the
    same adapter and call history. *)
Theorem read_region_torch_host_is_from_numpy
        (w : world) location level size device :
  contains "cuda" device = false ->
  let numpy := read_region location level size device "numpy" w in
  read_region location level size device "torch" w
  = (match fst numpy with
     | Ok (AsNumpy a) =>
         match torch_from_numpy a with
         | Ok t => Ok (AsTorch t)
         | Raise e => Raise e
         end
     | Ok other => Ok other
     | Raise e => Raise e
     end, snd numpy).
Proof.
  intros Hhost.
  unfold read_region, bind, get_self, attr_of, extern, lift, ret, raise.
  destruct (img (self w)) as [h|]; [|reflexivity]. cbv beta iota.
  destruct (cu_read_region h location level size device) as [a|e];
    [|reflexivity].
  cbn. rewrite Hhost.
  destruct (cp_asnumpy a) as [n|e]; [|reflexivity]. cbn.
  destruct (torch_from_numpy n); reflexivity.
Qed.

(** [get_thumbnail], step by step. *)
Lemma get_thumbnail_unfold (w : world) tw th :
  get_thumbnail (tw, th) w
  = match width (self w) with
    | None =>
        (Raise (mk_exn TypeError "unsupported operand type(s) for /"), w)
    | Some wd =>
        match truediv wd tw with
        | Raise e => (Raise e, w)
        | Ok dx =>
            match height (self w) with
            | None =>
                (Raise (mk_exn TypeError
                          "unsupported operand type(s) for /"), w)
            | Some ht =>
                match truediv ht th with
                | Raise e => (Raise e, w)
                | Ok dy =>
                    match get_best_level_and_custom_downsample
                            (self w) (fmax dx dy) with
                    | Raise e => (Raise e, w)
                    | Ok best =>
                        match level_dimensions (self w) with
                        | None =>
                            (Raise (mk_exn TypeError
                                      "'NoneType' object is not subscriptable"),
                             w)
                        | Some dims =>
                            match index "list" dims (fst best) with
                            | Raise e => (Raise e, w)
                            | Ok (lw, lh) =>
                                bind (read_region (0, 0) (fst best)
                                                  (lw, lh) "cpu" "pil")
                                     (fun r =>
                                        bind (convert_region r)
                                             (fun region =>
                                                lift (PIL.resize region
                                                        (th, tw))))
                                     w
                            end
                        end
                    end
                end
            end
        end
    end.
Proof.
  unfold get_thumbnail, bind at 1 2 3 4 5 6 7 8, get_self, operand, lift,
    subscriptable, ret, raise.
  destruct (width (self w)) as [wd|]; [|reflexivity]. cbv beta iota.
  destruct (truediv wd tw) as [dx|e]; [|reflexivity]. cbv beta iota.
  destruct (height (self w)) as [ht|]; [|reflexivity]. cbv beta iota.
  destruct (truediv ht th) as [dy|e]; [|reflexivity]. cbv beta iota.
  destruct (get_best_level_and_custom_downsample (self w) (fmax dx dy))
    as [best|e]; [|reflexivity]. cbv beta iota.
  destruct (level_dimensions (self w)) as [dims|]; [|reflexivity].
  cbv beta iota.
  destruct (index "list" dims (fst best)) as [[lw lh]|e]; reflexivity.
Qed.

Lemma truediv_zero a : truediv a 0
                       = Raise (mk_exn ZeroDivisionError "division by zero").
Proof. reflexivity. Qed.

Lemma truediv_nonzero a b :
  b <> 0%Z -> truediv a b = Ok (fdiv (inject_Z a) (inject_Z b)).
Proof.
  intros H. unfold truediv.
  destruct (Z.eqb_spec b 0); [contradiction|reflexivity].
Qed.

Lemma index_out_of_range {A} (l : list A) (i : Z) :
  (Z.of_nat (length l) <= i \/ i < - Z.of_nat (length l))%Z ->
  index "list" l i = Raise (mk_exn IndexError "list index out of range").
Proof.
  intros H. unfold index.
  destruct (i <? 0)%Z eqn:Eneg.
  - apply Z.ltb_lt in Eneg.
    destruct (0 <=? Z.of_nat (length l) + i)%Z eqn:E0; [|reflexivity].
    apply Z.leb_le in E0. lia.
  - apply Z.ltb_ge in Eneg.
    destruct (0 <=? i)%Z; [|reflexivity].
    destruct (i <? Z.of_nat (length l))%Z eqn:E1; [|reflexivity].
    apply Z.ltb_lt in E1. lia.
Qed.

End WithLibs.
End RegionFacts.

Module Thumbnail.
Import CuCIMWSI.

Section WithLibs.
Context {L : ExternalLibs} {B : WSIBase}.

(** X18.  When [get_thumbnail] returns an image, it made exactly one decode:
    of the whole of one level, from (0, 0), on the CPU; the level is the one
    the base class chose for the larger of the two ratios [width /
    size[0]] and [height / size[1]], and the size read is that level's
    entry of [level_dimensions].  No attribute of the adapter changed.  The
    image is in mode RGB, its width is [size[1]] and its height is
    [size[0]]; both are at least 1. *)
Theorem get_thumbnail_success (w w' : world) size im :
  get_thumbnail size w = (Ok im, w') ->
  exists wd ht level custom dims lw lh,
    width (self w) = Some wd
    /\ height (self w) = Some ht
    /\ get_best_level_and_custom_downsample
         (self w)
         (fmax (fdiv (inject_Z wd) (inject_Z (fst size)))
               (fdiv (inject_Z ht) (inject_Z (snd size))))
       = Ok (level, custom)
    /\ level_dimensions (self w) = Some dims
    /\ index "list" dims level = Ok (lw, lh)
    /\ w' = mk_world (self w)
                     (EvReadRegion (0, 0) level (lw, lh) "cpu" :: calls w)
    /\ im_mode im = "RGB"
    /\ im_size im = (snd size, fst size)
    /\ (1 <= fst size)%Z /\ (1 <= snd size)%Z.
Proof.
  destruct size as [tw th]. rewrite RegionFacts.get_thumbnail_unfold.
  cbn [fst snd].
  destruct (width (self w)) as [wd|]; [|discriminate].
  unfold truediv at 1.
  destruct (Z.eqb_spec tw 0) as [|Htw]; [discriminate|].
  destruct (height (self w)) as [ht|]; [|discriminate].
  unfold truediv at 1.
  destruct (Z.eqb_spec th 0) as [|Hth]; [discriminate|].
  destruct (get_best_level_and_custom_downsample _ _)
    as [[level custom]|e] eqn:Hbest; [|discriminate].
  destruct (level_dimensions (self w)) as [dims|]; [|discriminate].
  cbn [fst].
  destruct (index "list" dims level) as [[lw lh]|e] eqn:Hidx;
    [|discriminate].
  unfold bind at 1. rewrite RegionFacts.read_region_pil.
  destruct (img (self w)) as [h|]; [|discriminate].
  destruct (cu_read_region h (0, 0) level (lw, lh) "cpu") as [a|e];
    [|discriminate].
  destruct (cp_asnumpy a) as [n|e]; [|discriminate].
  destruct (Image_fromarray n) as [im0|e]; [|discriminate].
  unfold bind, convert_region, ret, lift, PIL.resize. cbn [fst snd].
  destruct (th <? 1)%Z eqn:E1; [discriminate|].
  destruct (tw <? 1)%Z eqn:E2; [discriminate|].
  cbn [orb]. intros [= <- <-].
  apply Z.ltb_ge in E1, E2.
  exists wd, ht, level, custom, dims, lw, lh.
  repeat split; first [reflexivity|assumption].
Qed.

(** X19.  A requested size with a zero component makes [get_thumbnail]
    raise [ZeroDivisionError] before any decode, on an adapter whose
    [width] and [height] are set. *)
Theorem get_thumbnail_zero_size (w : world) size wd ht :
  width (self w) = Some wd ->
  height (self w) = Some ht ->
  fst size = 0%Z \/ snd size = 0%Z ->
  get_thumbnail size w
  = (Raise (mk_exn ZeroDivisionError "division by zero"), w).
Proof.
  intros Hw Hh Hzero. destruct size as [tw th]. cbn [fst snd] in Hzero.
  rewrite RegionFacts.get_thumbnail_unfold, Hw, Hh.
  destruct (Z.eq_dec tw 0) as [->|Htw].
  - reflexivity.
  - rewrite (RegionFacts.truediv_nonzero _ _ Htw).
    destruct Hzero as [Hz|Hz]; [contradiction|]. rewrite Hz. reflexivity.
Qed.

(** X20.  When the level the base class chooses is not an index of
    [level_dimensions], [get_thumbnail] raises [IndexError] and decodes
    nothing. *)
Theorem get_thumbnail_level_out_of_range
        (w : world) size wd ht level custom dims :
  width (self w) = Some wd ->
  height (self w) = Some ht ->
  fst size <> 0%Z -> snd size <> 0%Z ->
  get_best_level_and_custom_downsample
    (self w)
    (fmax (fdiv (inject_Z wd) (inject_Z (fst size)))
          (fdiv (inject_Z ht) (inject_Z (snd size))))
  = Ok (level, custom) ->
  level_dimensions (self w) = Some dims ->
  (Z.of_nat (length dims) <= level \/ level < - Z.of_nat (length dims))%Z ->
  get_thumbnail size w
  = (Raise (mk_exn IndexError "list index out of range"), w).
Proof.
  intros Hw Hh Htw Hth Hbest Hdims Hrange.
  destruct size as [tw th]. cbn [fst snd] in *.
  rewrite RegionFacts.get_thumbnail_unfold, Hw, Hh.
  rewrite (RegionFacts.truediv_nonzero _ _ Htw),
    (RegionFacts.truediv_nonzero _ _ Hth), Hbest, Hdims.
  cbn [fst]. rewrite (RegionFacts.index_out_of_range _ _ Hrange).
  reflexivity.
Qed.

End WithLibs.
End Thumbnail.

(** ** The further theorems at the instance of [Demo] *)

Module Runs.
Import CuCIMWSI.

Abbreviation flat_of md := (Mpp.flatten_val md "" ∅).
Abbreviation handle_of md :=
  (mk_CuImage (cu_size Demo.slide) (cu_resolutions Demo.slide) md).

(** X1 at the key ['openslide.mpp-x'] of the metadata of [Demo]. *)
Lemma flatten_keys_lowercase_values_leaves_witness :
  lower "openslide.mpp-x" = "openslide.mpp-x"
  /\ is_dict (PFloat (25 # 100)) = false.
Proof.
  apply (CuCIMWSIMore.flatten_keys_lowercase_values_leaves
           Demo.metadata (flat_of Demo.metadata)
           "openslide.mpp-x" (PFloat (25 # 100)));
    vm_compute; reflexivity.
Defined.

(** X2 at ['mpp'] written after ['MPP']. *)
Lemma flatten_last_item_wins_witness :
  exists flat : gmap string pyval,
    Mpp.flatten (PDict (Cases.metadata_collision
                          ++ [("mpp", PFloat (1 # 2))])) = Ok flat
    /\ flat !! lower "mpp" = Some (PFloat (1 # 2)).
Proof.
  apply (CuCIMWSIMore.flatten_last_item_wins
           Cases.metadata_collision "mpp" (PFloat (1 # 2))).
  reflexivity.
Defined.

(** X3 at ['MPP-Y'] under ['OpenSlide']. *)
Lemma flatten_nested_item_dotted_key_witness :
  exists flat : gmap string pyval,
    Mpp.flatten
      (PDict (Cases.metadata_collision
                ++ [("OpenSlide",
                     PDict ([("mpp-x", PFloat (1 # 4))]
                              ++ [("MPP-Y", PFloat (1 # 2))]))]))
    = Ok flat
    /\ flat !! lower ("OpenSlide" ++ "." ++ "MPP-Y")
       = Some (PFloat (1 # 2)).
Proof.
  apply (CuCIMWSIMore.flatten_nested_item_dotted_key
           Cases.metadata_collision "OpenSlide"
           [("mpp-x", PFloat (1 # 4))] "MPP-Y" (PFloat (1 # 2)));
    [discriminate|reflexivity].
Defined.

(** X4 at metadata with three x keys and no y key: the first two are
    averaged. *)
Lemma fetch_mpp_first_two_fallback_values_witness :
  _fetch_mpp (L := Demo.libs) None (Demo.opened Cases.metadata_x_keys)
  = (Ok (Some (3 # 8)%Q), Demo.opened Cases.metadata_x_keys).
Proof.
  refine (eq_trans
            (CuCIMWSIMore.fetch_mpp_first_two_fallback_values
               (L := Demo.libs) (Demo.opened Cases.metadata_x_keys)
               (handle_of Cases.metadata_x_keys)
               (flat_of Cases.metadata_x_keys) _ _) _);
    vm_compute; reflexivity.
Defined.

(** X5 at metadata whose calibration keys hold text and a list. *)
Lemma fetch_mpp_none_iff_witness :
  _fetch_mpp (L := Demo.libs) None (Demo.opened Cases.metadata_text)
  = (Ok None, Demo.opened Cases.metadata_text).
Proof.
  apply (proj2 (CuCIMWSIMore.fetch_mpp_none_iff
                  (L := Demo.libs) (Demo.opened Cases.metadata_text)
                  (handle_of Cases.metadata_text)
                  (flat_of Cases.metadata_text) None eq_refl eq_refl)).
  split; [reflexivity|]. split; [reflexivity|].
  repeat constructor; vm_compute; reflexivity.
Defined.

(** X6 at custom keys naming two keys of the metadata. *)
Lemma fetch_mpp_custom_pair_wins_witness :
  _fetch_mpp (L := Demo.libs) (Some Cases.custom_xy)
             (Demo.opened Cases.metadata_two_custom)
  = (Ok (Some (fdiv (fadd (1 # 2) (1 # 4)) 2)),
     Demo.opened Cases.metadata_two_custom).
Proof.
  apply (CuCIMWSIMore.fetch_mpp_custom_pair_wins
           (L := Demo.libs) (Demo.opened Cases.metadata_two_custom)
           (handle_of Cases.metadata_two_custom)
           (flat_of Cases.metadata_two_custom) Cases.custom_xy
           "Scanner.PixelSizeX" "scanner.pixelsizey"
           (PFloat (1 # 2)) (PFloat (1 # 4)));
    vm_compute; reflexivity.
Defined.

(** X7 at custom keys naming a key for the x axis only. *)
Lemma fetch_mpp_custom_x_then_first_fallback_witness :
  _fetch_mpp (L := Demo.libs) (Some Demo.custom_x)
             (Demo.opened Demo.metadata_custom)
  = (Ok (Some (3 # 8)%Q), Demo.opened Demo.metadata_custom).
Proof.
  refine (eq_trans
            (CuCIMWSIMore.fetch_mpp_custom_x_then_first_fallback
               (L := Demo.libs) (Demo.opened Demo.metadata_custom)
               (handle_of Demo.metadata_custom)
               (flat_of Demo.metadata_custom) Demo.custom_x
               "Scanner.PixelSize" (PFloat (1 # 2)) (1 # 2)%Q
               _ _ _ _ _ _) _);
    vm_compute; reflexivity.
Defined.

(** X8 at two metadata that differ outside the fallback keys. *)
Lemma fetch_mpp_reads_calibration_keys_only_witness :
  fst (_fetch_mpp (L := Demo.libs) None Demo.ready)
  = fst (_fetch_mpp (L := Demo.libs) None
                    (Demo.opened Demo.metadata_custom)).
Proof.
  apply (CuCIMWSIMore.fetch_mpp_reads_calibration_keys_only
           (L := Demo.libs) Demo.ready (Demo.opened Demo.metadata_custom)
           Demo.slide (handle_of Demo.metadata_custom)
           (flat_of Demo.metadata) (flat_of Demo.metadata_custom) None);
    try (vm_compute; reflexivity).
  repeat constructor; vm_compute; reflexivity.
Defined.

Abbreviation lazy_initialize := (_lazy_initialize (L := Demo.libs)
                                                  (B := Demo.base)).

(** X9 at a fresh adapter of [Demo] on the existing slide. *)
Lemma lazy_initialize_success_attributes_witness :
  exists h d0 d1,
    CuImage_open (ExternalLibs := Demo.libs) "slide.svs" = Ok h
    /\ index "list" (cu_size h) 0 = Ok d0
    /\ index "list" (cu_size h) 1 = Ok d1
    /\ img (self Demo.ready) = Some h
    /\ dimensions (self Demo.ready) = Some (d0, d1)
    /\ width (self Demo.ready) = Some d0
    /\ height (self Demo.ready) = Some d1
    /\ get_dimensions Demo.ready = (Ok (Some (d0, d1)), Demo.ready)
    /\ level_count (self Demo.ready)
       = Some (res_level_count (cu_resolutions h))
    /\ level_downsamples (self Demo.ready)
       = Some (res_level_downsamples (cu_resolutions h))
    /\ level_dimensions (self Demo.ready)
       = Some (res_level_dimensions (cu_resolutions h))
    /\ properties (self Demo.ready) = Some (cu_metadata h)
    /\ lazy_init (self Demo.ready) = true.
Proof.
  apply (LazyInit.lazy_initialize_success_attributes
           (L := Demo.libs) (B := Demo.base)
           (Demo.fresh "slide.svs" None None) Demo.ready);
    vm_compute; reflexivity.
Defined.

(** X10 at a fresh adapter given the calibration 7/10, and at a fresh
    adapter given none. *)
Lemma lazy_initialize_mpp_witness :
  mpp (self (snd (lazy_initialize (Cases.fresh_with_mpp (7 # 10)))))
  = Some (7 # 10)%Q
  /\ exists h,
      CuImage_open (ExternalLibs := Demo.libs) "slide.svs" = Ok h
      /\ fetch_mpp_of (L := Demo.libs) (cu_metadata h) None
         = Ok (mpp (self Demo.ready)).
Proof.
  split.
  - refine (proj1 (LazyInit.lazy_initialize_mpp
                     (L := Demo.libs) (B := Demo.base)
                     (Cases.fresh_with_mpp (7 # 10))
                     (snd (lazy_initialize (Cases.fresh_with_mpp (7 # 10))))
                     (Ok tt) _) (7 # 10)%Q _);
      vm_compute; reflexivity.
  - refine (proj2 (LazyInit.lazy_initialize_mpp
                     (L := Demo.libs) (B := Demo.base)
                     (Demo.fresh "slide.svs" None None) Demo.ready
                     (Ok tt) _) _ _ _);
      vm_compute; reflexivity.
Defined.

(** X11 at a fresh adapter of [Demo] on a slide path that does not
    exist. *)
Lemma lazy_initialize_raises_import_error_or_plain_exception_witness :
  let w := Demo.fresh "missing.svs" None None in
  let e := mk_exn PlainException
                  "Error initializing WSI: No such file: missing.svs" in
  (cucim_import (ExternalLibs := Demo.libs) = Raise e
   /\ snd (lazy_initialize w) = w)
  \/ (cucim_import (ExternalLibs := Demo.libs) = Ok tt
      /\ exn_cls e = PlainException
      /\ exists text, exn_str e = "Error initializing WSI: " ++ text).
Proof.
  intros w e.
  apply (LazyInit.lazy_initialize_raises_import_error_or_plain_exception
           (L := Demo.libs) (B := Demo.base) w (snd (lazy_initialize w)) e);
    vm_compute; reflexivity.
Defined.

(** X12 at the same adapter. *)
Lemma lazy_initialize_early_failure_retries_witness :
  let w := Demo.fresh "missing.svs" None None in
  let w' := snd (lazy_initialize w) in
  lazy_init (self w') = false
  /\ gdf_contours (self w') = gdf_contours (self w)
  /\ exists later,
      calls (snd (lazy_initialize w'))
      = (later ++ EvOpen (slide_path (self w)) :: calls w')%list.
Proof.
  intros w w'.
  apply (LazyInit.lazy_initialize_early_failure_retries
           (L := Demo.libs) (B := Demo.base) w w'
           (mk_exn PlainException
                   "Error initializing WSI: No such file: missing.svs")
           "missing.svs");
    vm_compute; reflexivity.
Defined.

(** X14 at a fresh adapter of [Demo] with the existing contour file. *)
Lemma lazy_initialize_contours_loaded_witness :
  let w := Demo.fresh "slide.svs" (Some "contours.geojson") None in
  let w' := snd (lazy_initialize w) in
  exists g,
    gpd_read_file (ExternalLibs := Demo.libs) "contours.geojson" = Ok g
    /\ gdf_contours (self w') = Some g
    /\ calls w'
       = [EvReadFile "contours.geojson"; EvOpen "slide.svs"].
Proof.
  intros w w'.
  apply (LazyInit.lazy_initialize_contours_loaded
           (L := Demo.libs) (B := Demo.base) w w');
    vm_compute; reflexivity.
Defined.

(** X15 at a fresh adapter of [Demo] with a contour path that does not
    exist. *)
Lemma lazy_initialize_contour_failure_text_witness :
  mk_exn PlainException
    "Error initializing WSI: Tissue segmentation file not found: nope.geojson"
  = mk_exn PlainException
      ("Error initializing WSI: "
       ++ "Tissue segmentation file not found: " ++ "nope.geojson").
Proof.
  apply (LazyInit.lazy_initialize_contour_failure_text
           (L := Demo.libs) (B := Demo.base)
           (Demo.fresh "slide.svs" (Some "nope.geojson") None)
           (snd (lazy_initialize
                   (Demo.fresh "slide.svs" (Some "nope.geojson") None)))
           _ "nope.geojson"
           (mk_exn FileNotFoundError "No such file: nope.geojson"));
    vm_compute; reflexivity.
Defined.

(** X17 at the initialized adapter of [Demo], on the CPU. *)
Lemma read_region_torch_host_is_from_numpy_witness :
  read_region (L := Demo.libs) (0, 0) 0 (10, 20) "cpu" "torch" Demo.ready
  = (Ok (AsTorch (L := Demo.libs) ([10; 20]%Z, "cpu")),
     snd (read_region (L := Demo.libs) (0, 0) 0 (10, 20) "cpu" "numpy"
                      Demo.ready)).
Proof.
  apply (RegionFacts.read_region_torch_host_is_from_numpy
           (L := Demo.libs) Demo.ready (0, 0) 0 (10, 20) "cpu").
  reflexivity.
Defined.

(** X18 at the size (200, 100) on the initialized adapter of [Demo]. *)
Lemma get_thumbnail_success_witness :
  let w := Demo.ready in
  let out := get_thumbnail (L := Demo.libs) (B := Demo.base) (200, 100) w in
  exists wd ht level custom dims lw lh,
    width (self w) = Some wd
    /\ height (self w) = Some ht
    /\ get_best_level_and_custom_downsample
         (WSIBase := Demo.base) (self w)
         (fmax (fdiv (inject_Z wd) (inject_Z 200))
               (fdiv (inject_Z ht) (inject_Z 100)))
       = Ok (level, custom)
    /\ level_dimensions (self w) = Some dims
    /\ index "list" dims level = Ok (lw, lh)
    /\ snd out
       = mk_world (self w)
                  (EvReadRegion (0, 0) level (lw, lh) "cpu" :: calls w)
    /\ im_mode (mk_Image (100, 200) "RGB" [100; 200]) = "RGB"
    /\ im_size (mk_Image (100, 200) "RGB" [100; 200]) = (100, 200)
    /\ (1 <= 200)%Z /\ (1 <= 100)%Z.
Proof.
  intros w out.
  apply (Thumbnail.get_thumbnail_success
           (L := Demo.libs) (B := Demo.base) w (snd out) (200, 100)
           (mk_Image (100, 200) "RGB" [100; 200])).
  vm_compute; reflexivity.
Defined.

(** X19 at the size (0, 100) on the initialized adapter of [Demo]. *)
Lemma get_thumbnail_zero_size_witness :
  get_thumbnail (L := Demo.libs) (B := Demo.base) (0, 100) Demo.ready
  = (Raise (mk_exn ZeroDivisionError "division by zero"), Demo.ready).
Proof.
  apply (Thumbnail.get_thumbnail_zero_size
           (L := Demo.libs) (B := Demo.base) Demo.ready (0, 100) 4000 3000);
    [reflexivity|reflexivity|left; reflexivity].
Defined.

(** X20 at an adapter whose [level_dimensions] has one entry while the
    base class chooses level 1. *)
Lemma get_thumbnail_level_out_of_range_witness :
  get_thumbnail (L := Demo.libs) (B := Demo.base) (200, 100)
                Cases.one_level
  = (Raise (mk_exn IndexError "list index out of range"), Cases.one_level).
Proof.
  apply (Thumbnail.get_thumbnail_level_out_of_range
           (L := Demo.libs) (B := Demo.base) Cases.one_level (200, 100)
           4000 3000 1 (fdiv (fmax (fdiv 4000 200) (fdiv 3000 100)) 4)
           [(4000, 3000)%Z]);
    try reflexivity; try discriminate.
  left. vm_compute. discriminate.
Defined.

End Runs.

(** ** The single calibration key, within the range of the doubles *)

Module CalibrationRange.
Import CuCIMWSI.

Section WithLibs.
Context {L : ExternalLibs}.

Abbreviation try_parse := (Mpp.try_parse float_of_str).




End WithLibs.

Abbreviation flat_of md := (Mpp.flatten_val md "" ∅).
Abbreviation handle_of md :=
  (mk_CuImage (cu_size Demo.slide) (cu_resolutions Demo.slide) md).



End CalibrationRange.
